(** * Token issuance service ([simple-auth-server.ts]): a shallow embedding

    The server is one asynchronous request handler.  It is embedded as a
    function from the incoming request and the state of the response object
    to the final state, with the two external collaborators (Node's
    [querystring.parse] and the issuing authority's [auth.requestToken])
    taken as parameters.  Console logging is left out; every other statement
    of the handler has its counterpart below, in source order. *)

From Stdlib Require Import List NArith String Ascii Bool Lia.
Import ListNotations.

Local Open Scope N_scope.
Local Open Scope list_scope.

(** ** JavaScript strings

    A JavaScript string is a finite sequence of UTF-16 code units; the
    string operations the server uses ([startsWith], [split], [join],
    [replace] with a global regular expression, template literals) all work
    code unit by code unit. *)
Module JS.

Definition code_unit := N.
Definition jsstring := list code_unit.

(** A source-code string literal (all literals of the server are ASCII). *)
Definition lit (s : string) : jsstring :=
  map N_of_ascii (list_ascii_of_string s).

(** The same, for texts that contain double quotes: the apostrophe of the
    argument stands for the double quote (code unit 34). *)
Definition dq_lit (s : string) : jsstring :=
  map (fun c => if c =? 39 then 34 else c) (lit s).

Fixpoint eqb (s t : jsstring) : bool :=
  match s, t with
  | [], [] => true
  | c :: s', d :: t' => (c =? d) && eqb s' t'
  | _, _ => false
  end.

(** Truthiness of a string value: every string but the empty one. *)
Definition truthy (s : jsstring) : bool :=
  match s with [] => false | _ :: _ => true end.

(** Truthiness of [string | undefined]. *)
Definition truthy_opt (v : option jsstring) : bool :=
  match v with None => false | Some s => truthy s end.

(** [v || d] for [v] of type [string | undefined] and a string [d]. *)
Definition or_else (v : option jsstring) (d : jsstring) : jsstring :=
  match v with
  | Some s => if truthy s then s else d
  | None => d
  end.

(** [String.prototype.startsWith(p)]. *)
Fixpoint startsWith (p s : jsstring) : bool :=
  match p, s with
  | [], _ => true
  | c :: p', d :: s' => (c =? d) && startsWith p' s'
  | _ :: _, [] => false
  end.

(** [String.prototype.split(sep)] for a separator of one code unit: the
    result always has at least one segment, and the empty string splits into
    one empty segment. *)
Fixpoint split (sep : code_unit) (s : jsstring) : list jsstring :=
  match s with
  | [] => [[]]
  | c :: s' =>
      if c =? sep then [] :: split sep s'
      else match split sep s' with
           | seg :: segs => (c :: seg) :: segs
           | [] => [[c]]
           end
  end.

(** [Array.prototype.join(sep)] on an array of strings. *)
Fixpoint join (sep : jsstring) (parts : list jsstring) : jsstring :=
  match parts with
  | [] => []
  | [p] => p
  | p :: rest => p ++ sep ++ join sep rest
  end.

(** [Array.prototype.pop()]: the last element ([undefined] on an empty
    array) together with the array as [pop] leaves it. *)
Definition pop {A} (a : list A) : option A * list A :=
  match a with
  | [] => (None, [])
  | x :: a' => (Some (last a' x), removelast a)
  end.

(** The character class [\s] of ECMAScript regular expressions: WhiteSpace
    and LineTerminator code points, all of them single code units. *)
Definition is_whitespace (c : code_unit) : bool :=
  ((9 <=? c) && (c <=? 13))          (* TAB LF VT FF CR *)
  || (c =? 32)                       (* SPACE *)
  || (c =? 160)                      (* NO-BREAK SPACE *)
  || (c =? 5760)                     (* U+1680 *)
  || ((8192 <=? c) && (c <=? 8202))  (* U+2000 .. U+200A *)
  || (c =? 8232) || (c =? 8233)      (* U+2028, U+2029 *)
  || (c =? 8239)                     (* U+202F *)
  || (c =? 8287)                     (* U+205F *)
  || (c =? 12288)                    (* U+3000 *)
  || (c =? 65279).                   (* U+FEFF *)

(** [s.replace(/\s+/g, '_')]: the expression is greedy and global, so every
    maximal run of whitespace becomes one underscore (code unit 95).
    [in_run] tells that the code unit before belongs to a run whose
    underscore has been written already. *)
Fixpoint replace_ws_from (in_run : bool) (s : jsstring) : jsstring :=
  match s with
  | [] => []
  | c :: s' =>
      if is_whitespace c
      then (if in_run then replace_ws_from true s'
            else 95 :: replace_ws_from true s')
      else c :: replace_ws_from false s'
  end.

Definition replace_ws_runs (s : jsstring) : jsstring :=
  replace_ws_from false s.

(** A string holds a whitespace character. *)
Definition has_whitespace (s : jsstring) : bool := existsb is_whitespace s.

(** [String.prototype.includes(t)]. *)
Fixpoint includes (t s : jsstring) : bool :=
  startsWith t s ||
  match s with
  | [] => false
  | _ :: s' => includes t s'
  end.

End JS.

Import JS.

(** ** [JSON.stringify] on the values the server builds

    The server serializes two kinds of objects of its own: the error
    response (string fields) and the capability object (arrays of strings).
    Both go through QuoteJSONString of ECMAScript 2019. *)
Module JSON.

Definition hex_digit (n : N) : code_unit :=
  if n <? 10 then 48 + n else 87 + n.

(** UnicodeEscape: backslash, [u] and four lowercase hexadecimal digits. *)
Definition unicode_escape (c : code_unit) : jsstring :=
  [92; 117; hex_digit ((c / 4096) mod 16); hex_digit ((c / 256) mod 16);
   hex_digit ((c / 16) mod 16); hex_digit (c mod 16)].

Definition is_high_surrogate (c : code_unit) : bool :=
  (55296 <=? c) && (c <=? 56319).
Definition is_low_surrogate (c : code_unit) : bool :=
  (56320 <=? c) && (c <=? 57343).

(** One code unit that is not part of a surrogate pair. *)
Definition quote_unit (c : code_unit) : jsstring :=
  if c =? 8 then [92; 98]            (* \b *)
  else if c =? 9 then [92; 116]      (* \t *)
  else if c =? 10 then [92; 110]     (* \n *)
  else if c =? 12 then [92; 102]     (* \f *)
  else if c =? 13 then [92; 114]     (* \r *)
  else if c =? 34 then [92; 34]      (* \ and the double quote *)
  else if c =? 92 then [92; 92]      (* \\ *)
  else if (c <? 32) || is_high_surrogate c || is_low_surrogate c
       then unicode_escape c
  else [c].

(** The text between the quotes: the string is read code point by code
    point, so a well-formed surrogate pair is copied and a lone surrogate is
    escaped. *)
Fixpoint quote_chars (s : jsstring) : jsstring :=
  match s with
  | [] => []
  | c :: s' =>
      if is_high_surrogate c then
        match s' with
        | d :: s'' =>
            if is_low_surrogate d then c :: d :: quote_chars s''
            else quote_unit c ++ quote_chars s'
        | [] => quote_unit c
        end
      else quote_unit c ++ quote_chars s'
  end.

(** QuoteJSONString. *)
Definition quote (s : jsstring) : jsstring := 34 :: quote_chars s ++ [34].

(** An array of strings. *)
Definition stringify_array (a : list jsstring) : jsstring :=
  lit "[" ++ join (lit ",") (map quote a) ++ lit "]".

(** An object, given as its properties in enumeration order, each value
    already serialized. *)
Definition stringify_members (ms : list (jsstring * jsstring)) : jsstring :=
  lit "{" ++ join (lit ",") (map (fun m => quote (fst m) ++ lit ":" ++ snd m) ms)
          ++ lit "}".

End JSON.

(** ** Plain objects with string keys

    An object is kept as the list of its own properties in creation order.
    That is the order [JSON.stringify] enumerates them in as long as no key
    is an array index, which holds of every key the server uses. *)
Module Obj.

Definition t (V : Type) := list (jsstring * V).

Fixpoint get {V} (k : jsstring) (o : t V) : option V :=
  match o with
  | [] => None
  | (k', v) :: o' => if JS.eqb k k' then Some v else get k o'
  end.

(** Defining a property: an existing key keeps its place and takes the new
    value, a new key goes last. *)
Fixpoint set {V} (k : jsstring) (v : V) (o : t V) : t V :=
  match o with
  | [] => [(k, v)]
  | (k', v') :: o' =>
      if JS.eqb k k' then (k', v) :: o' else (k', v') :: set k v o'
  end.

Definition keys {V} (o : t V) : list jsstring := map fst o.

End Obj.

(** ** The result of [querystring.parse]

    An object without prototype whose values are strings, or arrays of
    strings for a key that occurs more than once.  Only property lookup is
    used, so the object is given by its lookup function. *)
Module Querystring.

Inductive value :=
| Str (s : jsstring)
| Arr (a : list jsstring).

Definition ParsedUrlQuery := jsstring -> option value.

(** Truthiness of [string | string[] | undefined]: an array is an object
    and always truthy. *)
Definition truthy (v : option value) : bool :=
  match v with
  | None => false
  | Some (Str s) => JS.truthy s
  | Some (Arr _) => true
  end.

(** A reference instance for texts without escapes: pairs are separated by
    [&], empty pairs are skipped, the key ends at the first [=], and nothing
    is decoded.  On such texts (no [%], no [+], at most 1000 pairs) it gives
    what Node's [querystring.parse] gives. *)
Fixpoint cut_at (sep : code_unit) (s : jsstring) : jsstring * jsstring :=
  match s with
  | [] => ([], [])
  | c :: s' =>
      if c =? sep then ([], s')
      else let (k, v) := cut_at sep s' in (c :: k, v)
  end.

Definition pairs (text : jsstring) : list (jsstring * jsstring) :=
  map (cut_at 61) (filter JS.truthy (split 38 text)).

Definition values_of (k : jsstring) (ps : list (jsstring * jsstring))
  : list jsstring :=
  map snd (filter (fun p => JS.eqb k (fst p)) ps).

Definition parse_plain (text : option jsstring) : ParsedUrlQuery :=
  fun k =>
    match text with
    | None => None
    | Some s =>
        match values_of k (pairs s) with
        | [] => None
        | [v] => Some (Str v)
        | vs => Some (Arr vs)
        end
    end.

End Querystring.

(** ** The server *)

(** [interface AuthHeaders]: the two request headers the server reads. *)
Record AuthHeaders := {
  x_user_id : option jsstring;
  x_user_name : option jsstring
}.

(** The part of [http.IncomingMessage] the handler looks at; [body] is the
    text [parseBody] accumulates from the chunks of the request. *)
Record IncomingMessage := {
  method : option jsstring;
  url : option jsstring;
  headers : AuthHeaders;
  body : jsstring
}.

(** [http.ServerResponse] as the handler drives it. *)
Record ServerResponse := {
  statusCode : N;
  resHeaders : Obj.t jsstring;
  data : jsstring;
  finished : bool
}.

(** [interface TokenCapabilities]. *)
Definition TokenCapabilities := Obj.t (list jsstring).

(** [interface ErrorResponse]. *)
Record ErrorResponse := {
  error : jsstring;
  details : option jsstring
}.

(** The object literal [tokenRequest] handed to the issuing authority. *)
Module TokenRequest.
Record t := {
  clientId : jsstring;
  capability : jsstring;
  ttl : N
}.
End TokenRequest.

(** A thrown [Error], of which the handler reads the message. *)
Record Error := { message : jsstring }.

(** What one run of the handler changes: the response object, and the token
    requests made to the issuing authority, oldest first. *)
Record World := {
  res : ServerResponse;
  requested : list TokenRequest.t
}.

(** The three [let] variables of the [try] block ([undefined] is [None]). *)
Record Identity := {
  userId : option jsstring;
  userName : option jsstring;
  clientId : option jsstring
}.

(** Statements read and change the world and either complete normally or
    throw. *)
Inductive completion (A : Type) :=
| Normal (a : A)
| Throw (e : Error).
Arguments Normal {A} a.
Arguments Throw {A} e.

Definition Try (A : Type) := World -> completion A * World.

Definition ret {A} (a : A) : Try A := fun w => (Normal a, w).
Definition throw {A} (e : Error) : Try A := fun w => (Throw e, w).
Definition bind {A B} (m : Try A) (k : A -> Try B) : Try B :=
  fun w =>
    match m w with
    | (Normal a, w') => k a w'
    | (Throw e, w') => (Throw e, w')
    end.

(** [try { m } catch (error) { h error }]. *)
Definition try_catch {A} (m : Try A) (h : Error -> Try A) : Try A :=
  fun w =>
    match m w with
    | (Normal a, w') => (Normal a, w')
    | (Throw e, w') => h e w'
    end.

Notation "x <- m ;; k" := (bind m (fun x => k))
  (at level 61, m at next level, right associativity).
Notation "m ;;; k" := (bind m (fun _ => k))
  (at level 61, right associativity).

(** [JSON.stringify(errorResponse)]: an absent [details] is left out. *)
Definition JSON_stringify_ErrorResponse (e : ErrorResponse) : jsstring :=
  JSON.stringify_members
    ((lit "error", JSON.quote (error e)) ::
     match details e with
     | Some d => [(lit "details", JSON.quote d)]
     | None => []
     end).

(** [JSON.stringify(capabilities)]. *)
Definition JSON_stringify_TokenCapabilities (c : TokenCapabilities) : jsstring :=
  JSON.stringify_members
    (map (fun m => (fst m, JSON.stringify_array (snd m))) c).

(** [res.setHeader], [res.writeHead] and [res.end]. *)
Definition setHeader (name value : jsstring) : Try unit :=
  fun w =>
    (Normal tt,
     {| res := {| statusCode := statusCode (res w);
                  resHeaders := Obj.set name value (resHeaders (res w));
                  data := data (res w);
                  finished := finished (res w) |};
        requested := requested w |}).

Definition writeHead (status : N) (hs : Obj.t jsstring) : Try unit :=
  fun w =>
    (Normal tt,
     {| res := {| statusCode := status;
                  resHeaders :=
                    fold_left (fun o h => Obj.set (fst h) (snd h) o) hs
                              (resHeaders (res w));
                  data := data (res w);
                  finished := finished (res w) |};
        requested := requested w |}).

Definition end_ (chunk : jsstring) : Try unit :=
  fun w =>
    (Normal tt,
     {| res := {| statusCode := statusCode (res w);
                  resHeaders := resHeaders (res w);
                  data := data (res w) ++ chunk;
                  finished := true |};
        requested := requested w |}).

(** The response object and the call record when a request arrives. *)
Definition fresh : World :=
  {| res := {| statusCode := 200; resHeaders := []; data := [];
               finished := false |};
     requested := [] |}.

(** The capability object of lines 100-103, a function of [userId]. *)
Definition capabilities (userId : jsstring) : TokenCapabilities :=
  Obj.set (lit "presence") [lit "publish"; lit "subscribe"; lit "presence"]
    (Obj.set (lit "roomslist:" ++ userId)
             [lit "publish"; lit "subscribe"; lit "history"] []).

Definition content_type_json : Obj.t jsstring :=
  [(lit "Content-Type", lit "application/json")].

(** The state of the three variables when no branch has assigned them. *)
Definition unassigned : Identity :=
  {| userId := None; userName := Some (lit "Unknown"); clientId := None |}.

(** Lines 41-44. *)
Definition enableCors : Try unit :=
  setHeader (lit "Access-Control-Allow-Origin") (lit "*") ;;;
  setHeader (lit "Access-Control-Allow-Methods") (lit "POST, GET, OPTIONS") ;;;
  setHeader (lit "Access-Control-Allow-Headers")
            (lit "Content-Type, X-User-Id, X-User-Name").

Section Server.

(** The token envelope of the issuing authority and its serialization are
    opaque to the server. *)
Variable TokenDetails : Type.
Variable JSON_stringify_TokenDetails : TokenDetails -> jsstring.

(** [querystring.parse], applied to [string | undefined]. *)
Variable querystring_parse : option jsstring -> Querystring.ParsedUrlQuery.

(** [ably.auth.requestToken]: the promise resolves with the token details
    or rejects with an error. *)
Variable ably_auth_requestToken : TokenRequest.t -> TokenDetails + Error.

(** [await ably.auth.requestToken(tokenRequest)]: the call is recorded, a
    rejection is thrown. *)
Definition requestToken (tokenRequest : TokenRequest.t) : Try TokenDetails :=
  fun w =>
    let w' := {| res := res w;
                 requested := requested w ++ [tokenRequest] |} in
    match ably_auth_requestToken tokenRequest with
    | inl tokenDetails => (Normal tokenDetails, w')
    | inr e => (Throw e, w')
    end.

(** [parseBody]. *)
Definition parseBody (req : IncomingMessage) : Querystring.ParsedUrlQuery :=
  querystring_parse (Some (body req)).

(** Lines 75-78: [queryParams.clientId || body.clientId]. *)
Definition sdkClientId (req : IncomingMessage) (url : jsstring)
  : option Querystring.value :=
  let queryParams := querystring_parse (nth_error (split 63 url) 1) in
  let body := parseBody req in
  if Querystring.truthy (queryParams (lit "clientId"))
  then queryParams (lit "clientId")
  else body (lit "clientId").

(** Lines 74-87, the [else] branch: identity from the [clientId] of the
    query string or of the body.  Calling [split] on an array of strings (a
    repeated [clientId] key) throws a TypeError, as does every call of a
    value that is not a function. *)
Definition identityFromSdk (req : IncomingMessage) (url : jsstring)
  : Try Identity :=
  match sdkClientId req url with
  | Some (Querystring.Str s) =>
      if truthy s then
        let (userId, parts) := pop (split 46 s) in
        ret {| userId := userId;
               userName := Some (join (lit ".") parts);
               clientId := Some s |}
      else ret unassigned
  | Some (Querystring.Arr _) =>
      throw {| message := lit "sdkClientId.split is not a function" |}
  | None => ret unassigned
  end.

(** Lines 62-88: the values of [userId], [userName] and [clientId] when the
    identity check of line 90 is reached.  [url] is [req.url], a string at
    this point. *)
Definition resolveIdentity (req : IncomingMessage) (url : jsstring)
  : Try Identity :=
  match x_user_id (headers req) with
  | Some id =>
      if truthy id then
        let userName := or_else (x_user_name (headers req)) (lit "Unknown") in
        ret {| userId := Some id;
               userName := Some userName;
               clientId := Some (replace_ws_runs userName ++ lit "." ++ id) |}
      else identityFromSdk req url
  | None => identityFromSdk req url
  end.

(** Lines 90-95. *)
Definition respondMissingIdentity : Try unit :=
  let errorResponse :=
    {| error := lit "Could not determine user identity"; details := None |} in
  writeHead 400 content_type_json ;;;
  end_ (JSON_stringify_ErrorResponse errorResponse).

(** Lines 61-120, the [try] block. *)
Definition tryBlock (req : IncomingMessage) (url : jsstring) : Try unit :=
  id <- resolveIdentity req url ;;
  match userId id, clientId id with
  | Some userId, Some clientId =>
      if truthy userId && truthy clientId then
        let capabilities := capabilities userId in
        let tokenRequest :=
          {| TokenRequest.clientId := clientId;
             TokenRequest.capability :=
               JSON_stringify_TokenCapabilities capabilities;
             TokenRequest.ttl := 3600000 |} in
        tokenDetails <- requestToken tokenRequest ;;
        writeHead 200 content_type_json ;;;
        end_ (JSON_stringify_TokenDetails tokenDetails)
      else respondMissingIdentity
  | _, _ => respondMissingIdentity
  end.

(** Lines 121-129, the [catch] block. *)
Definition catchBlock (error : Error) : Try unit :=
  let errorResponse :=
    {| error := lit "Failed to create token";
       details := Some (message error) |} in
  writeHead 500 content_type_json ;;;
  end_ (JSON_stringify_ErrorResponse errorResponse).

(** Lines 53-59. *)
Definition respondNotFound : Try unit :=
  let errorResponse := {| error := lit "Not Found"; details := None |} in
  writeHead 404 content_type_json ;;;
  end_ (JSON_stringify_ErrorResponse errorResponse).

(** Lines 53-130: everything after the preflight check. *)
Definition route (req : IncomingMessage) : Try unit :=
  match url req with
  | Some u =>
      if startsWith (lit "/auth") u
      then try_catch (tryBlock req u) catchBlock
      else respondNotFound
  | None => respondNotFound
  end.

(** [req.method === 'OPTIONS']. *)
Definition isPreflight (req : IncomingMessage) : bool :=
  match method req with
  | Some m => JS.eqb m (lit "OPTIONS")
  | None => false
  end.

(** The request listener given to [http.createServer]. *)
Definition handler (req : IncomingMessage) : Try unit :=
  enableCors ;;;
  if isPreflight req then writeHead 204 [] ;;; end_ []
  else route req.

End Server.

Arguments requestToken {TokenDetails}.
Arguments tryBlock {TokenDetails}.
Arguments route {TokenDetails}.
Arguments handler {TokenDetails}.

(** ** Stand-ins for the issuing authority

    An authority that grants every request and answers with the request it
    was given, and one that rejects every request with a fixed message. *)
Definition granting (r : TokenRequest.t) : TokenRequest.t + Error := inl r.

Definition rejecting (msg : jsstring) (r : TokenRequest.t)
  : TokenRequest.t + Error :=
  inr {| message := msg |}.

Definition JSON_stringify_echo (r : TokenRequest.t) : jsstring :=
  JSON.stringify_members
    [(lit "clientId", JSON.quote (TokenRequest.clientId r));
     (lit "capability", JSON.quote (TokenRequest.capability r))].

(** The same request under another method. *)
Definition withMethod (m : jsstring) (req : IncomingMessage)
  : IncomingMessage :=
  {| method := Some m; url := url req; headers := headers req;
     body := body req |}.

(** A header value that was sent. *)
Definition sent (s : string) : option jsstring := Some (lit s).

(** A request with the given method, URL, headers and body text. *)
Definition request (m u : string) (id name : option jsstring) (b : jsstring)
  : IncomingMessage :=
  {| method := Some (lit m);
     url := Some (lit u);
     headers := {| x_user_id := id; x_user_name := name |};
     body := b |}.

(** The table of section 4.2 of the specification, the rich policy, used to
    state what the capability object is compared with. *)
Definition richPolicy (userId : jsstring) : TokenCapabilities :=
  [(lit "roomslist:" ++ userId,
    [lit "publish"; lit "subscribe"; lit "history";
     lit "object-subscribe"; lit "object-publish"]);
   (lit "profile:" ++ userId, [lit "publish"; lit "subscribe"; lit "history"]);
   (lit "profile:*", [lit "subscribe"]);
   (userId ++ lit ":*",
    [lit "publish"; lit "subscribe"; lit "history"; lit "presence"]);
   (lit "*:" ++ userId,
    [lit "publish"; lit "subscribe"; lit "history"; lit "presence"]);
   (lit "presence", [lit "publish"; lit "subscribe"; lit "presence"]);
   (lit "*", [lit "subscribe"])].

(** A capability object maps [k] to the operation set [ops]: operation sets
    are compared as sets. *)
Definition grants (c : TokenCapabilities) (k : jsstring) (ops : list jsstring)
  : Prop :=
  exists l, Obj.get k c = Some l /\ forall o, In o l <-> In o ops.

(** Every entry of [p] is an entry of [c]. *)
Definition containsPolicy (c p : TokenCapabilities) : Prop :=
  Forall (fun e => grants c (fst e) (snd e)) p.

(** The same request with another body text, and with other headers. *)
Definition withBody (b : jsstring) (req : IncomingMessage) : IncomingMessage :=
  {| method := method req; url := url req; headers := headers req;
     body := b |}.

Definition withHeaders (h : AuthHeaders) (req : IncomingMessage)
  : IncomingMessage :=
  {| method := method req; url := url req; headers := h; body := body req |}.

(** Lines 106-110: the token request for a client identifier and a user
    identifier, as the [try] block builds it. *)
Definition tokenRequestFor (clientId userId : jsstring) : TokenRequest.t :=
  {| TokenRequest.clientId := clientId;
     TokenRequest.capability :=
       JSON_stringify_TokenCapabilities (capabilities userId);
     TokenRequest.ttl := 3600000 |}.

(** The world after a token request has gone out. *)
Definition afterRequest (r : TokenRequest.t) (w : World) : World :=
  {| res := res w; requested := requested w ++ [r] |}.

(** A text made of whitespace only. *)
Definition all_whitespace (s : jsstring) : bool := forallb is_whitespace s.

(** ** The client ([simple-client.ts])

    Of the client, what meets the server: the request it sends for a token,
    and the channels and operations it then uses the token for.  The
    configuration constants are parameters of the definitions. *)
Module Client.

Section Config.

Variables (id name : jsstring).

(** Lines 30-37: the [fetch] of [AUTH_SERVER_URL] as it reaches the server,
    that is with the path of the URL, header names in lower case and no
    body.  The [Content-Type] header is not among the headers the server
    reads. *)
Definition authRequest : IncomingMessage :=
  {| method := Some (lit "GET");
     url := Some (lit "/auth");
     headers := {| x_user_id := Some id; x_user_name := Some name |};
     body := [] |}.

(** Line 79. *)
Definition channelName : jsstring := lit "roomslist:" ++ id.

(** Lines 80-94: a message is published on [channelName], and the presence
    set of the channel [presence] is entered; the pairs are the channel and
    the operation each of the two needs a capability for. *)
Definition channelUses : list (jsstring * jsstring) :=
  [(channelName, lit "publish"); (lit "presence", lit "presence")].

End Config.

(** Lines 5-7. *)
Definition USER_ID : jsstring := lit "user_456".
Definition USER_NAME : jsstring := lit "Alice Johnson".

End Client.

(** * Properties *)

(** ** Strings *)

Lemma eqb_eq (s t : jsstring) : JS.eqb s t = true <-> s = t.
Proof.
  revert t; induction s as [|c s IH]; intros [|d t]; simpl;
    try (split; [discriminate | intros E; discriminate E]);
    try tauto.
  rewrite andb_true_iff, N.eqb_eq, IH.
  split; [intros [-> ->]; reflexivity | intros E; injection E; auto].
Qed.

Lemma eqb_refl (s : jsstring) : JS.eqb s s = true.
Proof. apply eqb_eq; reflexivity. Qed.

Lemma eqb_neq (s t : jsstring) : JS.eqb s t = false <-> s <> t.
Proof.
  rewrite <- eqb_eq. destruct (JS.eqb s t); split; congruence.
Qed.

Lemma startsWith_app (p s : jsstring) : startsWith p (p ++ s) = true.
Proof.
  induction p as [|c p IH]; simpl; [reflexivity|].
  rewrite N.eqb_refl; exact IH.
Qed.

Lemma split_not_nil (sep : code_unit) (s : jsstring) : split sep s <> [].
Proof.
  induction s as [|c s IH]; simpl; [discriminate|].
  destruct (c =? sep); [discriminate|].
  destruct (split sep s); discriminate.
Qed.

(** Splitting a text without separator gives the text as its one segment. *)
Lemma split_no_sep (sep : code_unit) (s : jsstring) :
  ~ In sep s -> split sep s = [s].
Proof.
  induction s as [|c s IH]; simpl; intros H; [reflexivity|].
  destruct (N.eqb_spec c sep) as [E|_]; [exfalso; auto|].
  rewrite IH by tauto. reflexivity.
Qed.

(** Splitting [name.tail] where [tail] has no separator: the segments of
    [name], then [tail]. *)
Lemma split_app_last (sep : code_unit) (name tail : jsstring) :
  ~ In sep tail ->
  split sep (name ++ sep :: tail) = split sep name ++ [tail].
Proof.
  intros H. induction name as [|c name IH]; simpl.
  - rewrite N.eqb_refl, split_no_sep by assumption. reflexivity.
  - destruct (c =? sep).
    + rewrite IH. reflexivity.
    + rewrite IH. destruct (split sep name) eqn:E; [|reflexivity].
      exfalso; exact (split_not_nil _ _ E).
Qed.

(** Joining the segments with the separator gives the text back. *)
Lemma join_split (sep : code_unit) (s : jsstring) :
  join [sep] (split sep s) = s.
Proof.
  induction s as [|c s IH]; simpl; [reflexivity|].
  destruct (c =? sep) eqn:E.
  - apply N.eqb_eq in E. subst c.
    destruct (split sep s) eqn:S0; [exfalso; exact (split_not_nil _ _ S0)|].
    simpl in *. rewrite IH. reflexivity.
  - destruct (split sep s) as [|seg segs] eqn:S0;
      [exfalso; exact (split_not_nil _ _ S0)|].
    destruct segs; simpl in *; rewrite <- IH; reflexivity.
Qed.

Lemma pop_snoc {A} (a : list A) (x : A) : pop (a ++ [x]) = (Some x, a).
Proof.
  unfold pop. destruct a as [|y a]; simpl; [reflexivity|].
  destruct (a ++ [x]) eqn:E; [destruct a; discriminate|].
  rewrite <- E.
  change (y :: a ++ [x]) with ((y :: a) ++ [x]).
  rewrite removelast_last, last_last. reflexivity.
Qed.

Lemma has_whitespace_app (s t : jsstring) :
  has_whitespace (s ++ t) = has_whitespace s || has_whitespace t.
Proof. apply existsb_app. Qed.

(** The replacement leaves no whitespace behind. *)
Lemma replace_ws_from_clean (b : bool) (s : jsstring) :
  has_whitespace (replace_ws_from b s) = false.
Proof.
  revert b; induction s as [|c s IH]; intros b; simpl; [reflexivity|].
  destruct (is_whitespace c) eqn:E.
  - destruct b; simpl; rewrite ?IH; reflexivity.
  - simpl. rewrite E, IH. reflexivity.
Qed.

(** A text without whitespace is left as it is. *)
Lemma replace_ws_from_id (b : bool) (s : jsstring) :
  has_whitespace s = false -> replace_ws_from b s = s.
Proof.
  revert b; induction s as [|c s IH]; intros b; simpl; [reflexivity|].
  intros H. apply orb_false_iff in H as [Hc Hs].
  rewrite Hc, IH by assumption. reflexivity.
Qed.

(** ** The model on sample inputs *)

Example split_dots :
  split 46 (lit "J.R.Doe.u1") = [lit "J"; lit "R"; lit "Doe"; lit "u1"].
Proof. reflexivity. Qed.

Example split_empty : split 46 [] = [[]].
Proof. reflexivity. Qed.

Example replace_runs :
  replace_ws_runs (lit "John Doe  Smith") = lit "John_Doe_Smith".
Proof. reflexivity. Qed.

(** A quote, a backslash, a line feed and a control character are escaped;
    a lone surrogate is escaped and a surrogate pair is copied. *)
Example quote_escapes :
  JSON.quote [97; 34; 92; 10; 1] = dq_lit "'a\'\\\n\u0001'" /\
  JSON.quote [55357] = dq_lit "'\ud83d'" /\
  JSON.quote [55357; 56832] = [34; 55357; 56832; 34].
Proof. repeat split; reflexivity. Qed.

Example capability_text :
  JSON_stringify_TokenCapabilities (capabilities (lit "u1")) =
  dq_lit "{'roomslist:u1':['publish','subscribe','history'],'presence':['publish','subscribe','presence']}".
Proof. reflexivity. Qed.

(** A repeated [clientId] key reaches [split] as an array: the TypeError is
    caught and answered 500, and the issuing authority is not asked. *)
Example repeated_clientId :
  let r := handler JSON_stringify_echo Querystring.parse_plain granting
             (request "GET" "/auth?clientId=x.u1&clientId=y.u2" None None [])
             fresh in
  statusCode (res (snd r)) = 500 /\
  data (res (snd r)) =
    dq_lit "{'error':'Failed to create token','details':'sdkClientId.split is not a function'}" /\
  requested (snd r) = [].
Proof. repeat split; vm_compute; reflexivity. Qed.

(** The preflight answer. *)
Example preflight :
  let r := handler JSON_stringify_echo Querystring.parse_plain granting
             (request "OPTIONS" "/auth" None None []) fresh in
  statusCode (res (snd r)) = 204 /\
  Obj.get (lit "Access-Control-Allow-Origin") (resHeaders (res (snd r))) =
    Some (lit "*") /\
  Obj.get (lit "Access-Control-Allow-Methods") (resHeaders (res (snd r))) =
    Some (lit "POST, GET, OPTIONS") /\
  data (res (snd r)) = [] /\ requested (snd r) = [].
Proof. repeat split; vm_compute; reflexivity. Qed.

(** ** The capability object *)

(** The two computed keys never coincide, so the object literal has two
    properties, in source order. *)
Lemma capabilities_eq (u : jsstring) :
  capabilities u =
  [(lit "roomslist:" ++ u, [lit "publish"; lit "subscribe"; lit "history"]);
   (lit "presence", [lit "publish"; lit "subscribe"; lit "presence"])].
Proof. reflexivity. Qed.

Lemma capabilities_keys_NoDup (u : jsstring) :
  NoDup (Obj.keys (capabilities u)).
Proof.
  rewrite capabilities_eq. simpl.
  constructor; [|constructor; [intros []|constructor]].
  intros [E|[]]. discriminate E.
Qed.

Lemma get_roomslist (u : jsstring) :
  Obj.get (lit "roomslist:" ++ u) (capabilities u) =
  Some [lit "publish"; lit "subscribe"; lit "history"].
Proof.
  rewrite capabilities_eq. cbn [Obj.get]. rewrite eqb_refl. reflexivity.
Qed.

Lemma get_presence (u : jsstring) :
  Obj.get (lit "presence") (capabilities u) =
  Some [lit "publish"; lit "subscribe"; lit "presence"].
Proof. reflexivity. Qed.

(** C1, as stated, fails for the user [u1]: the capability object of the
    server does not contain the seven entries of the rich policy (it has no
    [profile:u1] entry, to name one). *)
Lemma capabilities_not_rich :
  ~ containsPolicy (capabilities (lit "u1")) (richPolicy (lit "u1")).
Proof.
  intros H. unfold containsPolicy, richPolicy in H.
  apply Forall_inv_tail, Forall_inv in H.
  destruct H as [l [G _]]. vm_compute in G. discriminate G.
Qed.

(** C1, amended: for every non-empty [userId] the capability object
    consists of exactly two entries, [roomslist:<userId>] with publish,
    subscribe and history, and [presence] with publish, subscribe and
    presence. *)
Theorem capabilities_minimal_policy (u : jsstring) :
  u <> [] ->
  forall k ops,
    Obj.get k (capabilities u) = Some ops <->
    (k = lit "roomslist:" ++ u /\
     ops = [lit "publish"; lit "subscribe"; lit "history"]) \/
    (k = lit "presence" /\
     ops = [lit "publish"; lit "subscribe"; lit "presence"]).
Proof.
  intros _ k ops. split.
  - rewrite capabilities_eq. cbn [Obj.get].
    destruct (JS.eqb k (lit "roomslist:" ++ u)) eqn:E1.
    + apply eqb_eq in E1. intros [= <-]. left; split; [exact E1|reflexivity].
    + destruct (JS.eqb k (lit "presence")) eqn:E2; [|discriminate].
      apply eqb_eq in E2. intros [= <-]. right; split; [exact E2|reflexivity].
  - intros [[-> ->]|[-> ->]]; [apply get_roomslist|apply get_presence].
Qed.

Lemma capabilities_minimal_policy_witness :
  lit "u1" <> [] /\
  (Obj.get (lit "presence") (capabilities (lit "u1")) =
     Some [lit "publish"; lit "subscribe"; lit "presence"] <->
   (lit "presence" = lit "roomslist:" ++ lit "u1" /\
    [lit "publish"; lit "subscribe"; lit "presence"] =
    [lit "publish"; lit "subscribe"; lit "history"]) \/
   (lit "presence" = lit "presence" /\
    [lit "publish"; lit "subscribe"; lit "presence"] =
    [lit "publish"; lit "subscribe"; lit "presence"])).
Proof.
  split; [discriminate|].
  apply (capabilities_minimal_policy (lit "u1")). discriminate.
Defined.

(** C5: for every non-empty [userId] the capability object has the keys
    [roomslist:<userId>] and [presence], and the operations of
    [roomslist:<userId>] include publish and subscribe. *)
Theorem capabilities_required_keys (u : jsstring) :
  u <> [] ->
  In (lit "roomslist:" ++ u) (Obj.keys (capabilities u)) /\
  In (lit "presence") (Obj.keys (capabilities u)) /\
  (exists ops, Obj.get (lit "roomslist:" ++ u) (capabilities u) = Some ops /\
               In (lit "publish") ops /\ In (lit "subscribe") ops) /\
  (exists ops, Obj.get (lit "presence") (capabilities u) = Some ops).
Proof.
  intros _. rewrite get_roomslist, get_presence, capabilities_eq.
  split; [left; reflexivity|].
  split; [right; left; reflexivity|].
  split; eexists; [split; [reflexivity|]|reflexivity].
  split; [left; reflexivity|right; left; reflexivity].
Qed.

Lemma capabilities_required_keys_witness :
  lit "user_456" <> [] /\
  In (lit "roomslist:" ++ lit "user_456")
     (Obj.keys (capabilities (lit "user_456"))) /\
  In (lit "presence") (Obj.keys (capabilities (lit "user_456"))) /\
  (exists ops,
      Obj.get (lit "roomslist:" ++ lit "user_456")
              (capabilities (lit "user_456")) = Some ops /\
      In (lit "publish") ops /\ In (lit "subscribe") ops) /\
  (exists ops,
      Obj.get (lit "presence") (capabilities (lit "user_456")) = Some ops).
Proof.
  split; [discriminate|].
  apply (capabilities_required_keys (lit "user_456")). discriminate.
Defined.

(** ** Identity resolution *)

Section Identity.

Variable qs : option jsstring -> Querystring.ParsedUrlQuery.

(** Identity resolution reads the request only: it leaves the world as it
    is, and its outcome does not depend on the world. *)
Lemma resolveIdentity_world (req : IncomingMessage) (url : jsstring)
      (w : World) :
  resolveIdentity qs req url w = (fst (resolveIdentity qs req url fresh), w).
Proof.
  unfold resolveIdentity, identityFromSdk.
  destruct (x_user_id (headers req)) as [id|];
    [destruct (truthy id)|]; try reflexivity;
    destruct (sdkClientId qs req url) as [[s|a]|]; try reflexivity;
    destruct (truthy s); try reflexivity;
    destruct (pop (split 46 s)); reflexivity.
Qed.

(** The header path. *)
Lemma resolveIdentity_headers (req : IncomingMessage) (url : jsstring)
      (w : World) (u : jsstring) :
  x_user_id (headers req) = Some u -> u <> [] ->
  resolveIdentity qs req url w =
  (Normal
     {| userId := Some u;
        userName := Some (or_else (x_user_name (headers req)) (lit "Unknown"));
        clientId :=
          Some (replace_ws_runs
                  (or_else (x_user_name (headers req)) (lit "Unknown"))
                ++ lit "." ++ u) |},
   w).
Proof.
  intros E Hu. unfold resolveIdentity. rewrite E.
  destruct u; [contradiction|reflexivity].
Qed.

(** Without a usable [x-user-id] header the [else] branch decides. *)
Lemma resolveIdentity_no_header (req : IncomingMessage) (url : jsstring) :
  truthy_opt (x_user_id (headers req)) = false ->
  resolveIdentity qs req url = identityFromSdk qs req url.
Proof.
  unfold resolveIdentity. intros H.
  destruct (x_user_id (headers req)) as [id|]; [|reflexivity].
  simpl in H. rewrite H. reflexivity.
Qed.

(** The [else] branch, by the value of [sdkClientId]. *)
Lemma identityFromSdk_string (req : IncomingMessage) (url : jsstring)
      (w : World) (s : jsstring) :
  sdkClientId qs req url = Some (Querystring.Str s) -> s <> [] ->
  identityFromSdk qs req url w =
  (Normal {| userId := fst (pop (split 46 s));
             userName := Some (join (lit ".") (snd (pop (split 46 s))));
             clientId := Some s |}, w).
Proof.
  intros E Hs. unfold identityFromSdk. rewrite E.
  destruct s; [contradiction|]. cbn [truthy].
  destruct (pop (split 46 (c :: s))). reflexivity.
Qed.

Lemma identityFromSdk_falsy (req : IncomingMessage) (url : jsstring)
      (w : World) :
  Querystring.truthy (sdkClientId qs req url) = false ->
  identityFromSdk qs req url w = (Normal unassigned, w).
Proof.
  intros H. unfold identityFromSdk.
  destruct (sdkClientId qs req url) as [[s|a]|]; simpl in H;
    [rewrite H; reflexivity|discriminate|reflexivity].
Qed.

(** A resolved identity with a usable [userId] has a usable [clientId]. *)
Lemma resolved_clientId_truthy (req : IncomingMessage) (url : jsstring)
      (w w' : World) (id : Identity) (u : jsstring) :
  resolveIdentity qs req url w = (Normal id, w') ->
  userId id = Some u -> truthy u = true ->
  exists c, clientId id = Some c /\ truthy c = true.
Proof.
  intros R Hu Ht.
  destruct (truthy_opt (x_user_id (headers req))) eqn:Th.
  - destruct (x_user_id (headers req)) as [i|] eqn:Ei; [|discriminate].
    rewrite (resolveIdentity_headers req url w i Ei) in R
      by (intros ->; discriminate).
    injection R as <- _. simpl. eexists; split; [reflexivity|].
    destruct (replace_ws_runs _); reflexivity.
  - rewrite resolveIdentity_no_header in R by exact Th.
    destruct (sdkClientId qs req url) as [[s|a]|] eqn:Es.
    + destruct (truthy s) eqn:Ts.
      * rewrite (identityFromSdk_string req url w s Es) in R
          by (intros ->; discriminate).
        injection R as <- _. exists s; split; [reflexivity|exact Ts].
      * rewrite identityFromSdk_falsy in R by (rewrite Es; exact Ts).
        injection R as <- _. discriminate Hu.
    + unfold identityFromSdk in R. rewrite Es in R. discriminate R.
    + rewrite identityFromSdk_falsy in R by (rewrite Es; reflexivity).
      injection R as <- _. discriminate Hu.
Qed.

End Identity.

(** ** The client identifier *)

(** C2, as stated, fails: the user identifier is appended as it arrives, so
    for the header values [x-user-id: a b] and [x-user-name: Jane Doe] the
    client identifier sent to the issuing authority is [Jane_Doe.a b], which
    holds a space. *)
Lemma clientId_keeps_whitespace_of_userId :
  map TokenRequest.clientId
      (requested
         (snd (handler JSON_stringify_echo Querystring.parse_plain granting
                 (request "GET" "/auth" (sent "a b") (sent "Jane Doe") [])
                 fresh)))
  = [lit "Jane_Doe.a b"] /\
  has_whitespace (lit "Jane_Doe.a b") = true.
Proof. split; vm_compute; reflexivity. Qed.

(** C2, amended: for every non-empty [userId] and every display name, the
    derived client identifier is [s.userId] for a text [s] without
    whitespace (the display name, or its default, after the replacement);
    it is free of whitespace whenever [userId] is. *)
Theorem clientId_no_whitespace_from_name
        (qs : option jsstring -> Querystring.ParsedUrlQuery)
        (req : IncomingMessage) (url : jsstring) (w : World) (u : jsstring) :
  x_user_id (headers req) = Some u -> u <> [] ->
  exists id c s,
    resolveIdentity qs req url w = (Normal id, w) /\
    userId id = Some u /\ clientId id = Some c /\
    c = s ++ lit "." ++ u /\ has_whitespace s = false /\
    (has_whitespace u = false -> has_whitespace c = false).
Proof.
  intros E Hu. rewrite (resolveIdentity_headers qs req url w u E Hu).
  eexists _, _, _. repeat (split; [reflexivity|]).
  split; [apply replace_ws_from_clean|].
  intros Hw. rewrite !has_whitespace_app, Hw.
  unfold replace_ws_runs. rewrite replace_ws_from_clean. reflexivity.
Qed.

Lemma clientId_no_whitespace_from_name_witness :
  exists id c s,
    resolveIdentity Querystring.parse_plain
      (request "GET" "/auth" (sent "u1") (sent "John  Doe Smith") [])
      (lit "/auth") fresh = (Normal id, fresh) /\
    userId id = Some (lit "u1") /\ clientId id = Some c /\
    c = s ++ lit "." ++ lit "u1" /\ has_whitespace s = false /\
    (has_whitespace (lit "u1") = false -> has_whitespace c = false).
Proof.
  apply (clientId_no_whitespace_from_name Querystring.parse_plain
           (request "GET" "/auth" (sent "u1") (sent "John  Doe Smith") [])
           (lit "/auth") fresh (lit "u1")).
  - reflexivity.
  - discriminate.
Defined.

(** C3, as stated, fails when the user identifier holds a dot: the headers
    [x-user-id: a.b], [x-user-name: n] derive the client identifier [n.a.b],
    and the combined-id path reads that identifier as user [b] with display
    name [n.a]. *)
Lemma combined_id_roundtrip_fails_on_dotted_userId :
  resolveIdentity Querystring.parse_plain
    (request "GET" "/auth" (sent "a.b") (sent "n") []) (lit "/auth") fresh
  = (Normal {| userId := Some (lit "a.b"); userName := Some (lit "n");
               clientId := Some (lit "n.a.b") |}, fresh) /\
  resolveIdentity Querystring.parse_plain
    (request "GET" "/auth?clientId=n.a.b" None None [])
    (lit "/auth?clientId=n.a.b") fresh
  = (Normal {| userId := Some (lit "b"); userName := Some (lit "n.a");
               clientId := Some (lit "n.a.b") |}, fresh) /\
  lit "b" <> lit "a.b".
Proof. repeat split; try (vm_compute; reflexivity). discriminate. Qed.

(** C3, amended: the client identifier is determined by the pair of header
    values, whatever the rest of the request is; and for every combined
    identifier [name.userId] whose [userId] holds no dot, the combined-id
    path recovers [userId] and, as display name, [name], dots included. *)
Theorem combined_id_roundtrip
        (qs : option jsstring -> Querystring.ParsedUrlQuery) :
  (forall req1 req2 url1 url2 w1 w2 u,
      x_user_id (headers req1) = Some u ->
      x_user_id (headers req2) = Some u -> u <> [] ->
      x_user_name (headers req1) = x_user_name (headers req2) ->
      fst (resolveIdentity qs req1 url1 w1) =
      fst (resolveIdentity qs req2 url2 w2)) /\
  (forall req url w name uid,
      truthy_opt (x_user_id (headers req)) = false ->
      sdkClientId qs req url = Some (Querystring.Str (name ++ lit "." ++ uid)) ->
      ~ In 46 uid ->
      resolveIdentity qs req url w =
      (Normal {| userId := Some uid; userName := Some name;
                 clientId := Some (name ++ lit "." ++ uid) |}, w)).
Proof.
  split.
  - intros req1 req2 url1 url2 w1 w2 u E1 E2 Hu En.
    rewrite (resolveIdentity_headers qs req1 url1 w1 u E1 Hu),
            (resolveIdentity_headers qs req2 url2 w2 u E2 Hu), En.
    reflexivity.
  - intros req url w name uid Hh Es Hdot.
    rewrite resolveIdentity_no_header by exact Hh.
    rewrite (identityFromSdk_string qs req url w _ Es)
      by (destruct name; discriminate).
    change (name ++ lit "." ++ uid) with (name ++ 46 :: uid).
    rewrite split_app_last by exact Hdot.
    rewrite pop_snoc. cbn [fst snd].
    change (lit ".") with [46]. rewrite join_split. reflexivity.
Qed.

Lemma combined_id_roundtrip_witness :
  fst (resolveIdentity Querystring.parse_plain
         (request "GET" "/auth" (sent "u1") (sent "Jane Doe") [])
         (lit "/auth") fresh) =
  fst (resolveIdentity Querystring.parse_plain
         (request "POST" "/auth?x=1" (sent "u1") (sent "Jane Doe") (lit "y=2"))
         (lit "/auth?x=1") fresh) /\
  resolveIdentity Querystring.parse_plain
    (request "GET" "/auth?clientId=J.R.Doe.u1" None None [])
    (lit "/auth?clientId=J.R.Doe.u1") fresh =
  (Normal {| userId := Some (lit "u1"); userName := Some (lit "J.R.Doe");
             clientId := Some (lit "J.R.Doe" ++ lit "." ++ lit "u1") |},
   fresh).
Proof.
  split.
  - apply (proj1 (combined_id_roundtrip Querystring.parse_plain)
             (request "GET" "/auth" (sent "u1") (sent "Jane Doe") [])
             (request "POST" "/auth?x=1" (sent "u1") (sent "Jane Doe") (lit "y=2"))
             (lit "/auth") (lit "/auth?x=1") fresh fresh (lit "u1"));
      [reflexivity | reflexivity | discriminate | reflexivity].
  - apply (proj2 (combined_id_roundtrip Querystring.parse_plain)
             (request "GET" "/auth?clientId=J.R.Doe.u1" None None [])
             (lit "/auth?clientId=J.R.Doe.u1") fresh
             (lit "J.R.Doe") (lit "u1")).
    + reflexivity.
    + vm_compute. reflexivity.
    + intros H. vm_compute in H. repeat destruct H as [H|H]; discriminate H || exact H.
Defined.

(** C4, as stated, fails in its instance: for [x-user-id: test_user_123]
    without a name header the client identifier sent to the issuing
    authority is [Unknown.test_user_123], not [Unknown_User.test_user_123]. *)
Lemma default_name_is_Unknown :
  map TokenRequest.clientId
      (requested
         (snd (handler JSON_stringify_echo Querystring.parse_plain granting
                 (request "GET" "/auth" (sent "test_user_123") None [])
                 fresh)))
  = [lit "Unknown.test_user_123"] /\
  lit "Unknown.test_user_123" <> lit "Unknown_User.test_user_123".
Proof. split; [vm_compute; reflexivity | discriminate]. Qed.

(** C4, amended: a request with a non-empty user-id header and no name
    header gets the default display name [Unknown], which is not empty, and
    the client identifier [Unknown.<userId>]; for [test_user_123] that is
    [Unknown.test_user_123]. *)
Theorem clientId_default_name
        (qs : option jsstring -> Querystring.ParsedUrlQuery)
        (req : IncomingMessage) (url : jsstring) (w : World) (u : jsstring) :
  x_user_id (headers req) = Some u -> u <> [] ->
  x_user_name (headers req) = None ->
  resolveIdentity qs req url w =
  (Normal {| userId := Some u; userName := Some (lit "Unknown");
             clientId := Some (lit "Unknown." ++ u) |}, w) /\
  lit "Unknown" <> [] /\
  (u = lit "test_user_123" -> lit "Unknown." ++ u = lit "Unknown.test_user_123").
Proof.
  intros E Hu En.
  rewrite (resolveIdentity_headers qs req url w u E Hu), En.
  split; [reflexivity|]. split; [discriminate|]. intros ->. reflexivity.
Qed.

Lemma clientId_default_name_witness :
  resolveIdentity Querystring.parse_plain
    (request "GET" "/auth" (sent "test_user_123") None []) (lit "/auth") fresh
  = (Normal {| userId := Some (lit "test_user_123");
               userName := Some (lit "Unknown");
               clientId := Some (lit "Unknown." ++ lit "test_user_123") |},
     fresh) /\
  lit "Unknown" <> [] /\
  (lit "test_user_123" = lit "test_user_123" ->
   lit "Unknown." ++ lit "test_user_123" = lit "Unknown.test_user_123").
Proof.
  apply (clientId_default_name Querystring.parse_plain
           (request "GET" "/auth" (sent "test_user_123") None [])
           (lit "/auth") fresh (lit "test_user_123")).
  - reflexivity.
  - discriminate.
  - reflexivity.
Defined.

(** ** The request handler *)

Section Handler.

Context {TokenDetails : Type}.
Variable stringify : TokenDetails -> jsstring.
Variable qs : option jsstring -> Querystring.ParsedUrlQuery.
Variable ably : TokenRequest.t -> TokenDetails + Error.

(** After the preflight check the handler is [route] behind the CORS
    headers. *)
Lemma handler_route (req : IncomingMessage) (w : World) :
  isPreflight req = false ->
  handler stringify qs ably req w =
  route stringify qs ably req (snd (enableCors w)).
Proof.
  intros H. unfold handler, bind. rewrite H. reflexivity.
Qed.

Lemma route_auth (req : IncomingMessage) (u : jsstring) (w : World) :
  url req = Some u -> startsWith (lit "/auth") u = true ->
  route stringify qs ably req w =
  try_catch (tryBlock stringify qs ably req u) catchBlock w.
Proof.
  intros E S. unfold route. rewrite E, S. reflexivity.
Qed.

(** The [try] block with a usable identity: one token request, built from
    the resolved [clientId] and [userId]. *)
Lemma tryBlock_resolved (req : IncomingMessage) (url : jsstring) (w : World)
      (id : Identity) (u c : jsstring) :
  fst (resolveIdentity qs req url fresh) = Normal id ->
  userId id = Some u -> u <> [] -> clientId id = Some c ->
  tryBlock stringify qs ably req url w =
  (tokenDetails <-
     requestToken ably
       {| TokenRequest.clientId := c;
          TokenRequest.capability :=
            JSON_stringify_TokenCapabilities (capabilities u);
          TokenRequest.ttl := 3600000 |} ;;
   writeHead 200 content_type_json ;;;
   end_ (stringify tokenDetails)) w.
Proof.
  intros R Hu Hn Hc.
  assert (Tu : truthy u = true) by (destruct u; [contradiction|reflexivity]).
  assert (R' : resolveIdentity qs req url w = (Normal id, w))
    by (rewrite resolveIdentity_world, R; reflexivity).
  destruct (resolved_clientId_truthy qs req url w w id u R' Hu Tu)
    as [c' [Hc' Tc]].
  rewrite Hc in Hc'. injection Hc' as <-.
  unfold tryBlock at 1. unfold bind at 1. rewrite R', Hu, Hc, Tu, Tc.
  reflexivity.
Qed.

(** The [try] block without a usable [userId]: the 400 answer, and nothing
    is asked of the issuing authority. *)
Lemma tryBlock_unresolved (req : IncomingMessage) (url : jsstring) (w : World)
      (id : Identity) :
  fst (resolveIdentity qs req url fresh) = Normal id ->
  truthy_opt (userId id) = false ->
  tryBlock stringify qs ably req url w = respondMissingIdentity w.
Proof.
  intros R Hu.
  assert (R' : resolveIdentity qs req url w = (Normal id, w))
    by (rewrite resolveIdentity_world, R; reflexivity).
  unfold tryBlock, bind. rewrite R'.
  destruct (userId id) as [u|]; [|reflexivity].
  simpl in Hu. rewrite Hu. destruct (clientId id); reflexivity.
Qed.

End Handler.

(** ** Token issuance *)

(** A request to the auth endpoint whose identity resolves comes down to
    the token request and the answer to its outcome. *)
Lemma handler_resolved
        {TokenDetails : Type} (stringify : TokenDetails -> jsstring)
        (qs : option jsstring -> Querystring.ParsedUrlQuery)
        (ably : TokenRequest.t -> TokenDetails + Error)
        (req : IncomingMessage) (path : jsstring) (w : World)
        (id : Identity) (u c : jsstring) :
  isPreflight req = false ->
  url req = Some path -> startsWith (lit "/auth") path = true ->
  fst (resolveIdentity qs req path fresh) = Normal id ->
  userId id = Some u -> u <> [] -> clientId id = Some c ->
  handler stringify qs ably req w =
  try_catch
    (tokenDetails <-
       requestToken ably
         {| TokenRequest.clientId := c;
            TokenRequest.capability :=
              JSON_stringify_TokenCapabilities (capabilities u);
            TokenRequest.ttl := 3600000 |} ;;
     writeHead 200 content_type_json ;;;
     end_ (stringify tokenDetails))
    catchBlock (snd (enableCors w)).
Proof.
  intros Hp Hurl Hs R Hu Hn Hc.
  rewrite handler_route by exact Hp.
  rewrite (route_auth stringify qs ably req path _ Hurl Hs).
  unfold try_catch.
  rewrite (tryBlock_resolved stringify qs ably req path _ id u c R Hu Hn Hc).
  reflexivity.
Qed.

(** Whatever the authority answers, the token request is the one call on
    record. *)
Lemma requested_after_token_request
        {TokenDetails : Type} (stringify : TokenDetails -> jsstring)
        (ably : TokenRequest.t -> TokenDetails + Error)
        (r : TokenRequest.t) (w : World) :
  requested
    (snd (try_catch
            (tokenDetails <- requestToken ably r ;;
             writeHead 200 content_type_json ;;;
             end_ (stringify tokenDetails))
            catchBlock w)) = requested w ++ [r].
Proof.
  unfold try_catch, bind at 1, requestToken.
  destruct (ably r); reflexivity.
Qed.

(** C7: for every request whose identity resolves, the issuing authority is
    asked once, with the resolved client identifier, the JSON text of the
    capability object of the resolved user identifier, and a time to live of
    exactly 3600000 milliseconds. *)
Theorem token_request_fields
        {TokenDetails : Type} (stringify : TokenDetails -> jsstring)
        (qs : option jsstring -> Querystring.ParsedUrlQuery)
        (ably : TokenRequest.t -> TokenDetails + Error)
        (req : IncomingMessage) (path : jsstring)
        (id : Identity) (u c : jsstring) :
  isPreflight req = false ->
  url req = Some path -> startsWith (lit "/auth") path = true ->
  fst (resolveIdentity qs req path fresh) = Normal id ->
  userId id = Some u -> u <> [] -> clientId id = Some c ->
  requested (snd (handler stringify qs ably req fresh)) =
  [{| TokenRequest.clientId := c;
      TokenRequest.capability :=
        JSON_stringify_TokenCapabilities (capabilities u);
      TokenRequest.ttl := 3600000 |}].
Proof.
  intros Hp Hurl Hs R Hu Hn Hc.
  rewrite (handler_resolved stringify qs ably req path fresh id u c)
    by assumption.
  rewrite requested_after_token_request. reflexivity.
Qed.

Lemma token_request_fields_witness :
  requested
    (snd (handler JSON_stringify_echo Querystring.parse_plain granting
            (request "GET" "/auth" (sent "u1") (sent "Jane Doe") []) fresh)) =
  [{| TokenRequest.clientId := lit "Jane_Doe.u1";
      TokenRequest.capability :=
        JSON_stringify_TokenCapabilities (capabilities (lit "u1"));
      TokenRequest.ttl := 3600000 |}].
Proof.
  apply (token_request_fields JSON_stringify_echo Querystring.parse_plain
           granting (request "GET" "/auth" (sent "u1") (sent "Jane Doe") [])
           (lit "/auth")
           {| userId := Some (lit "u1"); userName := Some (lit "Jane Doe");
              clientId := Some (lit "Jane_Doe.u1") |}
           (lit "u1") (lit "Jane_Doe.u1"));
    try reflexivity.
  discriminate.
Defined.

(** C6: the capability text handed to the issuing authority is a function
    of the resolved user identifier alone: two requests that resolve to the
    same [userId] lead to the same capability, whatever their display names,
    client identifiers and the rest of the requests are. *)
Theorem capability_depends_on_userId_only
        {TokenDetails : Type} (stringify : TokenDetails -> jsstring)
        (qs : option jsstring -> Querystring.ParsedUrlQuery)
        (ably1 ably2 : TokenRequest.t -> TokenDetails + Error)
        (req1 req2 : IncomingMessage) (path1 path2 : jsstring)
        (id1 id2 : Identity) :
  isPreflight req1 = false -> isPreflight req2 = false ->
  url req1 = Some path1 -> startsWith (lit "/auth") path1 = true ->
  url req2 = Some path2 -> startsWith (lit "/auth") path2 = true ->
  fst (resolveIdentity qs req1 path1 fresh) = Normal id1 ->
  fst (resolveIdentity qs req2 path2 fresh) = Normal id2 ->
  userId id1 = userId id2 ->
  map TokenRequest.capability
      (requested (snd (handler stringify qs ably1 req1 fresh))) =
  map TokenRequest.capability
      (requested (snd (handler stringify qs ably2 req2 fresh))) /\
  (forall u, userId id1 = Some u -> u <> [] ->
     map TokenRequest.capability
         (requested (snd (handler stringify qs ably1 req1 fresh))) =
     [JSON_stringify_TokenCapabilities (capabilities u)]).
Proof.
  intros Hp1 Hp2 Hu1 Hs1 Hu2 Hs2 R1 R2 E.
  split.
  2:{ intros u U1 Hn.
      destruct (resolved_clientId_truthy qs req1 path1 fresh fresh id1 u)
        as [c1 [C1 _]]; auto.
      { rewrite resolveIdentity_world, R1. reflexivity. }
      { destruct u; [contradiction|reflexivity]. }
      rewrite (handler_resolved stringify qs ably1 req1 path1 fresh id1 u c1),
              requested_after_token_request; auto. }
  destruct (truthy_opt (userId id1)) eqn:T1.
  - destruct (userId id1) as [u|] eqn:U1; [|discriminate].
    assert (Hn : u <> []) by (intros ->; discriminate).
    assert (Tu : truthy u = true) by exact T1.
    destruct (resolved_clientId_truthy qs req1 path1 fresh fresh id1 u)
      as [c1 [C1 _]]; auto.
    { rewrite resolveIdentity_world, R1. reflexivity. }
    destruct (resolved_clientId_truthy qs req2 path2 fresh fresh id2 u)
      as [c2 [C2 _]]; auto.
    { rewrite resolveIdentity_world, R2. reflexivity. }
    rewrite (handler_resolved stringify qs ably1 req1 path1 fresh id1 u c1),
            (handler_resolved stringify qs ably2 req2 path2 fresh id2 u c2),
            !requested_after_token_request;
      auto.
  - assert (T2 : truthy_opt (userId id2) = false) by (rewrite <- E; exact T1).
    rewrite !handler_route by assumption.
    rewrite (route_auth stringify qs ably1 req1 path1 _ Hu1 Hs1),
            (route_auth stringify qs ably2 req2 path2 _ Hu2 Hs2).
    unfold try_catch.
    rewrite (tryBlock_unresolved stringify qs ably1 req1 path1 _ id1 R1 T1),
            (tryBlock_unresolved stringify qs ably2 req2 path2 _ id2 R2 T2).
    reflexivity.
Qed.

Lemma capability_depends_on_userId_only_witness :
  map TokenRequest.capability
      (requested
         (snd (handler JSON_stringify_echo Querystring.parse_plain granting
                 (request "GET" "/auth" (sent "u1") (sent "Alice Johnson") [])
                 fresh))) =
  map TokenRequest.capability
      (requested
         (snd (handler JSON_stringify_echo Querystring.parse_plain
                 (rejecting (lit "no"))
                 (request "POST" "/auth?clientId=Bob.u1" None None [])
                 fresh))) /\
  (forall u,
     userId {| userId := Some (lit "u1");
               userName := Some (lit "Alice Johnson");
               clientId := Some (lit "Alice_Johnson.u1") |} = Some u ->
     u <> [] ->
     map TokenRequest.capability
         (requested
            (snd (handler JSON_stringify_echo Querystring.parse_plain granting
                    (request "GET" "/auth" (sent "u1") (sent "Alice Johnson") [])
                    fresh))) =
     [JSON_stringify_TokenCapabilities (capabilities u)]).
Proof.
  apply (capability_depends_on_userId_only JSON_stringify_echo
           Querystring.parse_plain granting (rejecting (lit "no"))
           (request "GET" "/auth" (sent "u1") (sent "Alice Johnson") [])
           (request "POST" "/auth?clientId=Bob.u1" None None [])
           (lit "/auth") (lit "/auth?clientId=Bob.u1")
           {| userId := Some (lit "u1"); userName := Some (lit "Alice Johnson");
              clientId := Some (lit "Alice_Johnson.u1") |}
           {| userId := Some (lit "u1"); userName := Some (lit "Bob");
              clientId := Some (lit "Bob.u1") |});
    reflexivity.
Defined.

(** ** Error answers *)

(** The answer of lines 90-95. *)
Lemma respondMissingIdentity_eq (w : World) :
  respondMissingIdentity w =
  (Normal tt,
   {| res := {| statusCode := 400;
                resHeaders :=
                  Obj.set (lit "Content-Type") (lit "application/json")
                          (resHeaders (res w));
                data := data (res w)
                        ++ dq_lit "{'error':'Could not determine user identity'}";
                finished := true |};
      requested := requested w |}).
Proof. reflexivity. Qed.

(** C8: a request to the auth endpoint with no usable [x-user-id] header and
    no usable [clientId] in the query string or in the body is answered with
    status 400 and the JSON text of an error object whose [error] mentions
    the identity; the issuing authority is not asked. *)
Theorem missing_identity_is_400
        {TokenDetails : Type} (stringify : TokenDetails -> jsstring)
        (qs : option jsstring -> Querystring.ParsedUrlQuery)
        (ably : TokenRequest.t -> TokenDetails + Error)
        (req : IncomingMessage) (path : jsstring) :
  isPreflight req = false ->
  url req = Some path -> startsWith (lit "/auth") path = true ->
  truthy_opt (x_user_id (headers req)) = false ->
  Querystring.truthy (qs (nth_error (split 63 path) 1) (lit "clientId")) = false ->
  Querystring.truthy (qs (Some (body req)) (lit "clientId")) = false ->
  let r := handler stringify qs ably req fresh in
  fst r = Normal tt /\
  statusCode (res (snd r)) = 400 /\
  finished (res (snd r)) = true /\
  Obj.get (lit "Content-Type") (resHeaders (res (snd r))) =
    Some (lit "application/json") /\
  data (res (snd r)) =
    JSON_stringify_ErrorResponse
      {| error := lit "Could not determine user identity"; details := None |} /\
  data (res (snd r)) = dq_lit "{'error':'Could not determine user identity'}" /\
  includes (lit "identity") (lit "Could not determine user identity") = true /\
  requested (snd r) = [].
Proof.
  intros Hp Hurl Hs Hh Hq Hb r. subst r.
  rewrite handler_route by exact Hp.
  rewrite (route_auth stringify qs ably req path _ Hurl Hs).
  unfold try_catch.
  assert (R : fst (resolveIdentity qs req path fresh) = Normal unassigned).
  { rewrite resolveIdentity_no_header by exact Hh.
    rewrite identityFromSdk_falsy; [reflexivity|].
    unfold sdkClientId, parseBody. rewrite Hq. exact Hb. }
  rewrite (tryBlock_unresolved stringify qs ably req path _ unassigned R)
    by reflexivity.
  rewrite respondMissingIdentity_eq.
  repeat split; reflexivity.
Qed.

Lemma missing_identity_is_400_witness :
  let r := handler JSON_stringify_echo Querystring.parse_plain granting
             (request "GET" "/auth?x=1" None (sent "Test User") (lit "y=2")) fresh in
  fst r = Normal tt /\
  statusCode (res (snd r)) = 400 /\
  finished (res (snd r)) = true /\
  Obj.get (lit "Content-Type") (resHeaders (res (snd r))) =
    Some (lit "application/json") /\
  data (res (snd r)) =
    JSON_stringify_ErrorResponse
      {| error := lit "Could not determine user identity"; details := None |} /\
  data (res (snd r)) = dq_lit "{'error':'Could not determine user identity'}" /\
  includes (lit "identity") (lit "Could not determine user identity") = true /\
  requested (snd r) = [].
Proof.
  apply (missing_identity_is_400 JSON_stringify_echo Querystring.parse_plain
           granting (request "GET" "/auth?x=1" None (sent "Test User") (lit "y=2"))
           (lit "/auth?x=1"));
    reflexivity.
Defined.

(** C9: when the issuing authority rejects the token request, the handler
    completes normally with status 500 and the JSON text of an error object
    whose [error] is fixed and whose [details] is the message of the
    rejection; the authority has been asked once and is not asked again. *)
Theorem issuance_failure_is_500
        {TokenDetails : Type} (stringify : TokenDetails -> jsstring)
        (qs : option jsstring -> Querystring.ParsedUrlQuery)
        (ably : TokenRequest.t -> TokenDetails + Error)
        (req : IncomingMessage) (path : jsstring)
        (id : Identity) (u c : jsstring) (e : Error) :
  isPreflight req = false ->
  url req = Some path -> startsWith (lit "/auth") path = true ->
  fst (resolveIdentity qs req path fresh) = Normal id ->
  userId id = Some u -> u <> [] -> clientId id = Some c ->
  ably {| TokenRequest.clientId := c;
          TokenRequest.capability :=
            JSON_stringify_TokenCapabilities (capabilities u);
          TokenRequest.ttl := 3600000 |} = inr e ->
  let r := handler stringify qs ably req fresh in
  fst r = Normal tt /\
  statusCode (res (snd r)) = 500 /\
  finished (res (snd r)) = true /\
  Obj.get (lit "Content-Type") (resHeaders (res (snd r))) =
    Some (lit "application/json") /\
  data (res (snd r)) =
    JSON_stringify_ErrorResponse
      {| error := lit "Failed to create token";
         details := Some (message e) |} /\
  data (res (snd r)) =
    dq_lit "{'error':'Failed to create token','details':"
    ++ JSON.quote (message e) ++ lit "}" /\
  requested (snd r) =
    [{| TokenRequest.clientId := c;
        TokenRequest.capability :=
          JSON_stringify_TokenCapabilities (capabilities u);
        TokenRequest.ttl := 3600000 |}].
Proof.
  intros Hp Hurl Hs R Hu Hn Hc Hably r. subst r.
  rewrite (handler_resolved stringify qs ably req path fresh id u c)
    by assumption.
  unfold try_catch, bind at 1, requestToken. rewrite Hably.
  repeat split; reflexivity.
Qed.

Lemma issuance_failure_is_500_witness :
  let r := handler JSON_stringify_echo Querystring.parse_plain
             (rejecting (lit "Invalid key"))
             (request "GET" "/auth" (sent "u1") None []) fresh in
  fst r = Normal tt /\
  statusCode (res (snd r)) = 500 /\
  finished (res (snd r)) = true /\
  Obj.get (lit "Content-Type") (resHeaders (res (snd r))) =
    Some (lit "application/json") /\
  data (res (snd r)) =
    JSON_stringify_ErrorResponse
      {| error := lit "Failed to create token";
         details := Some (message {| message := lit "Invalid key" |}) |} /\
  data (res (snd r)) =
    dq_lit "{'error':'Failed to create token','details':"
    ++ JSON.quote (message {| message := lit "Invalid key" |}) ++ lit "}" /\
  requested (snd r) =
    [{| TokenRequest.clientId := lit "Unknown.u1";
        TokenRequest.capability :=
          JSON_stringify_TokenCapabilities (capabilities (lit "u1"));
        TokenRequest.ttl := 3600000 |}].
Proof.
  apply (issuance_failure_is_500 JSON_stringify_echo Querystring.parse_plain
           (rejecting (lit "Invalid key"))
           (request "GET" "/auth" (sent "u1") None []) (lit "/auth")
           {| userId := Some (lit "u1"); userName := Some (lit "Unknown");
              clientId := Some (lit "Unknown.u1") |}
           (lit "u1") (lit "Unknown.u1") {| message := lit "Invalid key" |});
    try reflexivity.
  discriminate.
Defined.

(** ** Routing *)

Lemma respondNotFound_eq (w : World) :
  respondNotFound w =
  (Normal tt,
   {| res := {| statusCode := 404;
                resHeaders :=
                  Obj.set (lit "Content-Type") (lit "application/json")
                          (resHeaders (res w));
                data := data (res w) ++ dq_lit "{'error':'Not Found'}";
                finished := true |};
      requested := requested w |}).
Proof. reflexivity. Qed.

Lemma isPreflight_withMethod (m : jsstring) (req : IncomingMessage) :
  m <> lit "OPTIONS" -> isPreflight (withMethod m req) = false.
Proof. intros H. apply eqb_neq. exact H. Qed.

(** The auth flow answers 200, 400 or 500. *)
Lemma auth_flow_status
      {TokenDetails : Type} (stringify : TokenDetails -> jsstring)
      (qs : option jsstring -> Querystring.ParsedUrlQuery)
      (ably : TokenRequest.t -> TokenDetails + Error)
      (req : IncomingMessage) (path : jsstring) (w : World) :
  let r := try_catch (tryBlock stringify qs ably req path) catchBlock w in
  fst r = Normal tt /\ finished (res (snd r)) = true /\
  In (statusCode (res (snd r))) [200; 400; 500].
Proof.
  unfold try_catch, tryBlock, bind.
  rewrite resolveIdentity_world.
  destruct (fst (resolveIdentity qs req path fresh)) as [id|e];
    [|simpl; intuition].
  destruct (userId id) as [u|]; [|simpl; intuition].
  destruct (clientId id) as [c|]; [|simpl; intuition].
  destruct (truthy u && truthy c); [|simpl; intuition].
  unfold requestToken. destruct (ably _); simpl; intuition.
Qed.

(** C10: routing goes by the prefix of the URL and not by the method.  A
    request other than OPTIONS whose URL does not start with [/auth] is
    answered 404 with the body [{"error":"Not Found"}]; one whose URL starts
    with [/auth], whatever follows the prefix, runs the [try] block of
    identity resolution and token issuance under the [catch] block, and is
    answered 200, 400 or 500; and the answer is the same under every method
    other than OPTIONS. *)
Theorem routing_by_prefix
        {TokenDetails : Type} (stringify : TokenDetails -> jsstring)
        (qs : option jsstring -> Querystring.ParsedUrlQuery)
        (ably : TokenRequest.t -> TokenDetails + Error) :
  (forall req,
      isPreflight req = false ->
      (forall p, url req = Some p -> startsWith (lit "/auth") p = false) ->
      let r := handler stringify qs ably req fresh in
      fst r = Normal tt /\
      statusCode (res (snd r)) = 404 /\
      finished (res (snd r)) = true /\
      Obj.get (lit "Content-Type") (resHeaders (res (snd r))) =
        Some (lit "application/json") /\
      data (res (snd r)) = dq_lit "{'error':'Not Found'}" /\
      requested (snd r) = []) /\
  (forall req rest,
      isPreflight req = false ->
      url req = Some (lit "/auth" ++ rest) ->
      let r := handler stringify qs ably req fresh in
      r = try_catch (tryBlock stringify qs ably req (lit "/auth" ++ rest))
                    catchBlock (snd (enableCors fresh)) /\
      fst r = Normal tt /\
      In (statusCode (res (snd r))) [200; 400; 500]) /\
  (forall req m1 m2,
      m1 <> lit "OPTIONS" -> m2 <> lit "OPTIONS" ->
      handler stringify qs ably (withMethod m1 req) fresh =
      handler stringify qs ably (withMethod m2 req) fresh).
Proof.
  split; [|split].
  - intros req Hp Hu r. subst r.
    rewrite handler_route by exact Hp.
    unfold route. destruct (url req) as [p|].
    + rewrite (Hu p eq_refl), respondNotFound_eq. repeat split; reflexivity.
    + rewrite respondNotFound_eq. repeat split; reflexivity.
  - intros req rest Hp Hu r. subst r.
    rewrite handler_route by exact Hp.
    rewrite (route_auth stringify qs ably req _ _ Hu (startsWith_app _ _)).
    split; [reflexivity|].
    destruct (auth_flow_status stringify qs ably req (lit "/auth" ++ rest)
                               (snd (enableCors fresh))) as [F [_ S]].
    split; assumption.
  - intros req m1 m2 H1 H2.
    rewrite !handler_route by (apply isPreflight_withMethod; assumption).
    reflexivity.
Qed.

Lemma routing_by_prefix_witness :
  (let r := handler JSON_stringify_echo Querystring.parse_plain granting
              (request "DELETE" "/nope" (sent "u1") None []) fresh in
   fst r = Normal tt /\
   statusCode (res (snd r)) = 404 /\
   finished (res (snd r)) = true /\
   Obj.get (lit "Content-Type") (resHeaders (res (snd r))) =
     Some (lit "application/json") /\
   data (res (snd r)) = dq_lit "{'error':'Not Found'}" /\
   requested (snd r) = []) /\
  (let r := handler JSON_stringify_echo Querystring.parse_plain granting
              (request "PUT" "/authXYZ" (sent "u1") None []) fresh in
   r = try_catch (tryBlock JSON_stringify_echo Querystring.parse_plain granting
                    (request "PUT" "/authXYZ" (sent "u1") None [])
                    (lit "/auth" ++ lit "XYZ"))
                 catchBlock (snd (enableCors fresh)) /\
   fst r = Normal tt /\
   In (statusCode (res (snd r))) [200; 400; 500]) /\
  handler JSON_stringify_echo Querystring.parse_plain granting
    (withMethod (lit "PUT") (request "GET" "/auth/extra" (sent "u1") None []))
    fresh =
  handler JSON_stringify_echo Querystring.parse_plain granting
    (withMethod (lit "DELETE") (request "GET" "/auth/extra" (sent "u1") None []))
    fresh.
Proof.
  pose proof (routing_by_prefix JSON_stringify_echo Querystring.parse_plain
                granting) as [A [B C]].
  split; [|split].
  - apply (A (request "DELETE" "/nope" (sent "u1") None [])).
    + reflexivity.
    + intros p [= <-]. reflexivity.
  - apply (B (request "PUT" "/authXYZ" (sent "u1") None []) (lit "XYZ"));
      reflexivity.
  - apply (C (request "GET" "/auth/extra" (sent "u1") None [])
             (lit "PUT") (lit "DELETE")); discriminate.
Defined.

(** * Further properties of the server *)

(** ** Segments *)

Lemma last_cons_default {A} (l : list A) (x d : A) :
  last (x :: l) d = last l x.
Proof.
  revert x d; induction l as [|y t IH]; intros x d; [reflexivity|].
  change (last (x :: y :: t) d) with (last (y :: t) d).
  rewrite (IH y d), (IH y x). reflexivity.
Qed.

(** What [pop] returns is the last element, and what it leaves is the
    rest. *)
Lemma pop_inv {A} (a init : list A) (l : A) :
  pop a = (Some l, init) -> a = init ++ [l].
Proof.
  destruct a as [|x a']; [discriminate|].
  unfold pop. intros [= <- <-].
  rewrite <- (last_cons_default a' x x).
  apply app_removelast_last. discriminate.
Qed.

(** The last segment holds no separator. *)
Lemma split_last_no_sep (sep : code_unit) (s : jsstring) :
  forall init l, split sep s = init ++ [l] -> ~ In sep l.
Proof.
  induction s as [|c s IH]; intros init l; simpl.
  - destruct init as [|i [|j init]]; intros [= <-]; intros [].
  - destruct (N.eqb_spec c sep) as [->|Hc].
    + destruct init as [|i init]; simpl.
      * intros [= _ E]. exfalso; exact (split_not_nil _ _ E).
      * intros [= _ E]. exact (IH _ _ E).
    + destruct (split sep s) as [|seg segs] eqn:S0;
        [exfalso; exact (split_not_nil _ _ S0)|].
      destruct init as [|i init]; simpl.
      * intros [= <- ->]. specialize (IH [] seg eq_refl).
        intros [E|H]; [exact (Hc E)|exact (IH H)].
      * intros [= _ ->]. exact (IH (seg :: init) l eq_refl).
Qed.

Lemma join_snoc (sep : jsstring) (init : list jsstring) (l : jsstring) :
  init <> [] -> join sep (init ++ [l]) = join sep init ++ sep ++ l.
Proof.
  induction init as [|p [|q t] IH]; intros H; [contradiction|reflexivity|].
  change (join sep ((p :: q :: t) ++ [l]))
    with (p ++ sep ++ join sep ((q :: t) ++ [l])).
  rewrite IH by discriminate.
  change (join sep (p :: q :: t)) with (p ++ sep ++ join sep (q :: t)).
  rewrite <- !app_assoc. reflexivity.
Qed.

(** A text with one segment is that segment; a text with more is its
    segments but the last, the separator and the last segment. *)
Lemma split_snoc_text (sep : code_unit) (s : jsstring)
      (init : list jsstring) (l : jsstring) :
  split sep s = init ++ [l] ->
  (init = [] /\ s = l) \/ (init <> [] /\ s = join [sep] init ++ sep :: l).
Proof.
  intros E. pose proof (join_split sep s) as J. rewrite E in J.
  destruct init as [|i init]; [left; split; [reflexivity|symmetry; exact J]|].
  right. split; [discriminate|].
  rewrite join_snoc in J by discriminate. symmetry. exact J.
Qed.

(** ** Whitespace runs *)

Lemma replace_ws_from_run (ws b : jsstring) :
  all_whitespace ws = true ->
  replace_ws_from true (ws ++ b) = replace_ws_from true b /\
  (ws <> [] -> replace_ws_from false (ws ++ b) = 95 :: replace_ws_from true b).
Proof.
  unfold all_whitespace. induction ws as [|c ws IH]; simpl; intros H.
  - split; [reflexivity|intros C; contradiction].
  - apply andb_true_iff in H as [Hc Hw]. rewrite Hc.
    destruct (IH Hw) as [T _]. split; [exact T|intros _; rewrite T; reflexivity].
Qed.

(** The result does not tell one run of whitespace from another. *)
Lemma replace_ws_from_runs_equal (a b ws1 ws2 : jsstring) (f : bool) :
  all_whitespace ws1 = true -> all_whitespace ws2 = true ->
  ws1 <> [] -> ws2 <> [] ->
  replace_ws_from f (a ++ ws1 ++ b) = replace_ws_from f (a ++ ws2 ++ b).
Proof.
  intros A1 A2 N1 N2. revert f. induction a as [|c a IH]; intros f.
  - destruct (replace_ws_from_run ws1 b A1) as [T1 F1].
    destruct (replace_ws_from_run ws2 b A2) as [T2 F2].
    destruct f; simpl.
    + rewrite T1, T2. reflexivity.
    + rewrite F1, F2 by assumption. reflexivity.
  - simpl. destruct (is_whitespace c); [destruct f|]; rewrite ?IH; reflexivity.
Qed.

(** ** Identity resolution, further *)

(** X6: on the combined-id path the identifier is taken apart without loss:
    the user identifier is the text after the last dot and holds no dot, and
    display name, dot and user identifier give the identifier back; an
    identifier without dot is the user identifier as a whole, with an empty
    display name. *)
Theorem sdk_identity_reassembles
        (qs : option jsstring -> Querystring.ParsedUrlQuery)
        (req : IncomingMessage) (path : jsstring) (w : World) (s : jsstring) :
  truthy_opt (x_user_id (headers req)) = false ->
  sdkClientId qs req path = Some (Querystring.Str s) -> s <> [] ->
  exists u n,
    resolveIdentity qs req path w =
    (Normal {| userId := Some u; userName := Some n; clientId := Some s |}, w)
    /\ ~ In 46 u
    /\ ((~ In 46 s /\ n = [] /\ u = s) \/ (In 46 s /\ s = n ++ lit "." ++ u)).
Proof.
  intros Hh Es Hs.
  rewrite resolveIdentity_no_header by exact Hh.
  rewrite (identityFromSdk_string qs req path w s Es Hs).
  destruct (pop (split 46 s)) as [[u|] parts] eqn:P.
  - apply pop_inv in P. exists u, (join (lit ".") parts).
    split; [reflexivity|].
    pose proof (split_last_no_sep 46 s parts u P) as Hu.
    split; [exact Hu|].
    destruct (split_snoc_text 46 s parts u P) as [[-> ->]|[_ E]].
    + left. split; [exact Hu|split; reflexivity].
    + right. split; [|exact E].
      rewrite E. apply in_or_app. right. left. reflexivity.
  - exfalso. unfold pop in P.
    destruct (split 46 s) eqn:S0; [exact (split_not_nil _ _ S0)|discriminate].
Qed.

Lemma sdk_identity_reassembles_witness :
  exists u n,
    resolveIdentity Querystring.parse_plain
      (request "GET" "/auth" None None (lit "clientId=J.R.Doe.u1"))
      (lit "/auth") fresh =
    (Normal {| userId := Some u; userName := Some n;
               clientId := Some (lit "J.R.Doe.u1") |}, fresh)
    /\ ~ In 46 u
    /\ ((~ In 46 (lit "J.R.Doe.u1") /\ n = [] /\ u = lit "J.R.Doe.u1") \/
        (In 46 (lit "J.R.Doe.u1") /\ lit "J.R.Doe.u1" = n ++ lit "." ++ u)).
Proof.
  apply (sdk_identity_reassembles Querystring.parse_plain
           (request "GET" "/auth" None None (lit "clientId=J.R.Doe.u1"))
           (lit "/auth") fresh (lit "J.R.Doe.u1")).
  - reflexivity.
  - vm_compute. reflexivity.
  - discriminate.
Defined.

(** Whichever way the identity resolves, the client identifier ends in the
    user identifier. *)
Lemma resolved_userId_suffix
      (qs : option jsstring -> Querystring.ParsedUrlQuery)
      (req : IncomingMessage) (path : jsstring)
      (id : Identity) (u c : jsstring) :
  fst (resolveIdentity qs req path fresh) = Normal id ->
  userId id = Some u -> clientId id = Some c ->
  exists p, c = p ++ u.
Proof.
  intros R Hu Hc.
  destruct (truthy_opt (x_user_id (headers req))) eqn:Th.
  - destruct (x_user_id (headers req)) as [i|] eqn:Ei; [|discriminate].
    rewrite (resolveIdentity_headers qs req path fresh i Ei) in R
      by (intros ->; discriminate).
    injection R as <-. cbn [userId clientId] in Hu, Hc.
    injection Hu as ->. injection Hc as <-.
    exists (replace_ws_runs (or_else (x_user_name (headers req)) (lit "Unknown"))
            ++ lit ".").
    rewrite <- app_assoc. reflexivity.
  - rewrite resolveIdentity_no_header in R by exact Th.
    destruct (sdkClientId qs req path) as [[s|a]|] eqn:Es.
    + destruct (truthy s) eqn:Ts.
      * rewrite (identityFromSdk_string qs req path fresh s Es) in R
          by (intros ->; discriminate).
        injection R as <-. cbn [userId clientId] in Hu, Hc.
        injection Hc as <-.
        destruct (pop (split 46 s)) as [o parts] eqn:P.
        cbn [fst] in Hu. subst o.
        apply pop_inv in P.
        destruct (split_snoc_text 46 s parts u P) as [[_ ->]|[_ ->]].
        -- exists []. reflexivity.
        -- exists (join [46] parts ++ [46]). rewrite <- app_assoc. reflexivity.
      * rewrite identityFromSdk_falsy in R by (rewrite Es; exact Ts).
        injection R as <-. discriminate Hu.
    + unfold identityFromSdk in R. rewrite Es in R. discriminate R.
    + rewrite identityFromSdk_falsy in R by (rewrite Es; reflexivity).
      injection R as <-. discriminate Hu.
Qed.

(** X13: a display name without whitespace goes into the client identifier
    as it is. *)
Theorem clean_name_kept
        (qs : option jsstring -> Querystring.ParsedUrlQuery)
        (req : IncomingMessage) (path : jsstring) (w : World)
        (u n : jsstring) :
  x_user_id (headers req) = Some u -> u <> [] ->
  x_user_name (headers req) = Some n -> n <> [] ->
  has_whitespace n = false ->
  resolveIdentity qs req path w =
  (Normal {| userId := Some u; userName := Some n;
             clientId := Some (n ++ lit "." ++ u) |}, w).
Proof.
  intros Eu Hu En Hn Hw.
  rewrite (resolveIdentity_headers qs req path w u Eu Hu), En.
  assert (O : or_else (Some n) (lit "Unknown") = n)
    by (destruct n; [contradiction|reflexivity]).
  rewrite O. unfold replace_ws_runs.
  rewrite replace_ws_from_id by exact Hw. reflexivity.
Qed.

Lemma clean_name_kept_witness :
  resolveIdentity Querystring.parse_plain
    (request "GET" "/auth" (sent "user_456") (sent "Alice_Johnson") [])
    (lit "/auth") fresh =
  (Normal {| userId := Some (lit "user_456");
             userName := Some (lit "Alice_Johnson");
             clientId := Some (lit "Alice_Johnson" ++ lit "." ++ lit "user_456") |},
   fresh).
Proof.
  apply (clean_name_kept Querystring.parse_plain
           (request "GET" "/auth" (sent "user_456") (sent "Alice_Johnson") [])
           (lit "/auth") fresh (lit "user_456") (lit "Alice_Johnson"));
    reflexivity || discriminate.
Defined.

(** X14: the client identifier does not tell one run of whitespace in the
    display name from another: two names that differ in one run only, in its
    length or in the whitespace characters it is made of, give the same
    client identifier. *)
Theorem whitespace_runs_collapse
        (qs : option jsstring -> Querystring.ParsedUrlQuery)
        (req : IncomingMessage) (path : jsstring) (w : World)
        (u a b ws1 ws2 : jsstring) :
  u <> [] ->
  all_whitespace ws1 = true -> all_whitespace ws2 = true ->
  ws1 <> [] -> ws2 <> [] ->
  exists c,
    resolveIdentity qs
      (withHeaders {| x_user_id := Some u;
                      x_user_name := Some (a ++ ws1 ++ b) |} req) path w =
    (Normal {| userId := Some u; userName := Some (a ++ ws1 ++ b);
               clientId := Some c |}, w) /\
    resolveIdentity qs
      (withHeaders {| x_user_id := Some u;
                      x_user_name := Some (a ++ ws2 ++ b) |} req) path w =
    (Normal {| userId := Some u; userName := Some (a ++ ws2 ++ b);
               clientId := Some c |}, w).
Proof.
  intros Hu A1 A2 N1 N2.
  assert (O : forall ws, ws <> [] ->
                or_else (Some (a ++ ws ++ b)) (lit "Unknown") = a ++ ws ++ b).
  { intros ws Hws. destruct a; [destruct ws; [contradiction|]|]; reflexivity. }
  eexists. split.
  - rewrite (resolveIdentity_headers qs
               (withHeaders {| x_user_id := Some u;
                               x_user_name := Some (a ++ ws1 ++ b) |} req)
               path w u eq_refl Hu).
    cbn [headers withHeaders x_user_name]. rewrite (O ws1 N1). reflexivity.
  - rewrite (resolveIdentity_headers qs
               (withHeaders {| x_user_id := Some u;
                               x_user_name := Some (a ++ ws2 ++ b) |} req)
               path w u eq_refl Hu).
    cbn [headers withHeaders x_user_name]. rewrite (O ws2 N2).
    unfold replace_ws_runs.
    rewrite (replace_ws_from_runs_equal a b ws2 ws1 false A2 A1 N2 N1).
    reflexivity.
Qed.

Lemma whitespace_runs_collapse_witness :
  exists c,
    resolveIdentity Querystring.parse_plain
      (withHeaders {| x_user_id := Some (lit "u1");
                      x_user_name := Some (lit "Jane" ++ lit " " ++ lit "Doe") |}
         (request "GET" "/auth" None None [])) (lit "/auth") fresh =
    (Normal {| userId := Some (lit "u1");
               userName := Some (lit "Jane" ++ lit " " ++ lit "Doe");
               clientId := Some c |}, fresh) /\
    resolveIdentity Querystring.parse_plain
      (withHeaders {| x_user_id := Some (lit "u1");
                      x_user_name := Some (lit "Jane" ++ [9; 32; 160] ++ lit "Doe") |}
         (request "GET" "/auth" None None [])) (lit "/auth") fresh =
    (Normal {| userId := Some (lit "u1");
               userName := Some (lit "Jane" ++ [9; 32; 160] ++ lit "Doe");
               clientId := Some c |}, fresh).
Proof.
  apply (whitespace_runs_collapse Querystring.parse_plain
           (request "GET" "/auth" None None []) (lit "/auth") fresh
           (lit "u1") (lit "Jane") (lit "Doe") (lit " ") [9; 32; 160]);
    reflexivity || discriminate.
Defined.

(** ** The handler, case by case *)

(** The auth flow ends in one of four ways: identity resolution throws, no
    identity is found, the issuing authority grants, or it rejects. *)
Lemma auth_flow_cases
      {TokenDetails : Type} (stringify : TokenDetails -> jsstring)
      (qs : option jsstring -> Querystring.ParsedUrlQuery)
      (ably : TokenRequest.t -> TokenDetails + Error)
      (req : IncomingMessage) (path : jsstring) (w : World) :
  let r := try_catch (tryBlock stringify qs ably req path) catchBlock w in
  (exists e, fst (resolveIdentity qs req path fresh) = Throw e /\
             r = catchBlock e w) \/
  (exists id, fst (resolveIdentity qs req path fresh) = Normal id /\
              truthy_opt (userId id) = false /\
              r = respondMissingIdentity w) \/
  (exists id u c,
      fst (resolveIdentity qs req path fresh) = Normal id /\
      userId id = Some u /\ u <> [] /\ clientId id = Some c /\
      ((exists td, ably (tokenRequestFor c u) = inl td /\
                   r = (writeHead 200 content_type_json ;;;
                        end_ (stringify td))
                         (afterRequest (tokenRequestFor c u) w)) \/
       (exists e, ably (tokenRequestFor c u) = inr e /\
                  r = catchBlock e (afterRequest (tokenRequestFor c u) w)))).
Proof.
  intros r.
  destruct (fst (resolveIdentity qs req path fresh)) as [id|e] eqn:R.
  - destruct (truthy_opt (userId id)) eqn:T.
    + right; right.
      destruct (userId id) as [u|] eqn:U; [|discriminate].
      assert (Hn : u <> []) by (intros ->; discriminate).
      destruct (resolved_clientId_truthy qs req path fresh fresh id u)
        as [c [C _]]; auto.
      { rewrite resolveIdentity_world, R. reflexivity. }
      exists id, u, c. repeat (split; [assumption || reflexivity|]).
      subst r. unfold try_catch.
      rewrite (tryBlock_resolved stringify qs ably req path w id u c R U Hn C).
      unfold bind at 1, requestToken.
      change {| TokenRequest.clientId := c;
                TokenRequest.capability :=
                  JSON_stringify_TokenCapabilities (capabilities u);
                TokenRequest.ttl := 3600000 |} with (tokenRequestFor c u).
      destruct (ably (tokenRequestFor c u)) as [td|e];
        [left; exists td|right; exists e]; split; reflexivity.
    + right; left. exists id. repeat (split; [assumption || reflexivity|]).
      subst r. unfold try_catch.
      rewrite (tryBlock_unresolved stringify qs ably req path w id R T).
      reflexivity.
  - left. exists e. split; [reflexivity|].
    subst r. unfold try_catch, tryBlock, bind.
    rewrite resolveIdentity_world, R. reflexivity.
Qed.

(** The handler ends in the preflight answer, in the 404 answer or in the
    auth flow, each behind the CORS headers. *)
Lemma handler_cases
      {TokenDetails : Type} (stringify : TokenDetails -> jsstring)
      (qs : option jsstring -> Querystring.ParsedUrlQuery)
      (ably : TokenRequest.t -> TokenDetails + Error)
      (req : IncomingMessage) (w : World) :
  let r := handler stringify qs ably req w in
  (isPreflight req = true /\
   r = (writeHead 204 [] ;;; end_ []) (snd (enableCors w))) \/
  (isPreflight req = false /\
   (forall p, url req = Some p -> startsWith (lit "/auth") p = false) /\
   r = respondNotFound (snd (enableCors w))) \/
  (isPreflight req = false /\
   exists path, url req = Some path /\ startsWith (lit "/auth") path = true /\
     r = try_catch (tryBlock stringify qs ably req path) catchBlock
                   (snd (enableCors w))).
Proof.
  intros r. subst r.
  destruct (isPreflight req) eqn:P.
  - left. split; [reflexivity|]. unfold handler, bind. rewrite P. reflexivity.
  - right. rewrite handler_route by exact P. unfold route.
    destruct (url req) as [p|] eqn:U.
    + destruct (startsWith (lit "/auth") p) eqn:S.
      * right. split; [reflexivity|]. exists p. auto.
      * left. split; [reflexivity|]. split; [|reflexivity].
        intros p' [= <-]. exact S.
    + left. split; [reflexivity|]. split; [|reflexivity]. discriminate.
Qed.

(** Case analysis of one run of the handler from the fresh world: the
    outcome is rewritten into the goal, one goal for each of the six ways
    the handler can end. *)
Ltac handler_outcomes stringify qs ably req :=
  let P := fresh "P" in
  let U := fresh "U" in
  let S := fresh "S" in
  let path := fresh "path" in
  destruct (handler_cases stringify qs ably req fresh)
    as [[P ->]|[[P [U ->]]|[P [path [U [S ->]]]]]];
  [ | |
    let e := fresh "e" in
    let id := fresh "id" in
    let u := fresh "u" in
    let c := fresh "c" in
    let td := fresh "td" in
    let R := fresh "R" in
    let T := fresh "T" in
    let Hu := fresh "Hu" in
    let Hn := fresh "Hn" in
    let Hc := fresh "Hc" in
    let A := fresh "A" in
    destruct (auth_flow_cases stringify qs ably req path (snd (enableCors fresh)))
      as [[e [R ->]]|[[id [R [T ->]]]
         |[id [u [c [R [Hu [Hn [Hc [[td [A ->]]|[e [A ->]]]]]]]]]]]] ].

(** ** What every answer has *)


(** X2: every answer, whatever its status, carries the three CORS headers
    of lines 42-44. *)
Theorem cors_headers_on_every_answer
        {TokenDetails : Type} (stringify : TokenDetails -> jsstring)
        (qs : option jsstring -> Querystring.ParsedUrlQuery)
        (ably : TokenRequest.t -> TokenDetails + Error)
        (req : IncomingMessage) :
  let h := resHeaders (res (snd (handler stringify qs ably req fresh))) in
  Obj.get (lit "Access-Control-Allow-Origin") h = Some (lit "*") /\
  Obj.get (lit "Access-Control-Allow-Methods") h =
    Some (lit "POST, GET, OPTIONS") /\
  Obj.get (lit "Access-Control-Allow-Headers") h =
    Some (lit "Content-Type, X-User-Id, X-User-Name").
Proof.
  intros h; subst h.
  handler_outcomes stringify qs ably req; repeat split; reflexivity.
Qed.

(** X3: a 200 answer is never made up: when the status is 200 the issuing
    authority was asked exactly once, it granted the request, and the body
    is the serialization of what it answered, sent as JSON. *)
Theorem ok_only_from_grant
        {TokenDetails : Type} (stringify : TokenDetails -> jsstring)
        (qs : option jsstring -> Querystring.ParsedUrlQuery)
        (ably : TokenRequest.t -> TokenDetails + Error)
        (req : IncomingMessage) :
  statusCode (res (snd (handler stringify qs ably req fresh))) = 200 ->
  exists tr td,
    requested (snd (handler stringify qs ably req fresh)) = [tr] /\
    ably tr = inl td /\
    data (res (snd (handler stringify qs ably req fresh))) = stringify td /\
    Obj.get (lit "Content-Type")
            (resHeaders (res (snd (handler stringify qs ably req fresh)))) =
      Some (lit "application/json").
Proof.
  handler_outcomes stringify qs ably req; intros H;
    try (simpl in H; discriminate H).
  exists (tokenRequestFor c u), td. repeat split. exact A.
Qed.

Lemma ok_only_from_grant_witness :
  exists tr td,
    requested
      (snd (handler JSON_stringify_echo Querystring.parse_plain granting
              (request "GET" "/auth" (sent "u1") None []) fresh)) = [tr] /\
    granting tr = inl td /\
    data (res (snd (handler JSON_stringify_echo Querystring.parse_plain granting
                      (request "GET" "/auth" (sent "u1") None []) fresh))) =
      JSON_stringify_echo td /\
    Obj.get (lit "Content-Type")
            (resHeaders
               (res (snd (handler JSON_stringify_echo Querystring.parse_plain
                            granting
                            (request "GET" "/auth" (sent "u1") None [])
                            fresh)))) =
      Some (lit "application/json").
Proof.
  apply (ok_only_from_grant JSON_stringify_echo Querystring.parse_plain
           granting (request "GET" "/auth" (sent "u1") None [])).
  vm_compute. reflexivity.
Defined.

(** X4: an answer 204, 400 or 404 means that the issuing authority was not
    asked. *)
Theorem no_token_request_behind_204_400_404
        {TokenDetails : Type} (stringify : TokenDetails -> jsstring)
        (qs : option jsstring -> Querystring.ParsedUrlQuery)
        (ably : TokenRequest.t -> TokenDetails + Error)
        (req : IncomingMessage) :
  In (statusCode (res (snd (handler stringify qs ably req fresh))))
     [204; 400; 404] ->
  requested (snd (handler stringify qs ably req fresh)) = [].
Proof.
  handler_outcomes stringify qs ably req; intros H; try reflexivity;
    simpl in H; exfalso;
    repeat (destruct H as [H|H]; [discriminate H|]); exact H.
Qed.

Lemma no_token_request_behind_204_400_404_witness :
  requested
    (snd (handler JSON_stringify_echo Querystring.parse_plain granting
            (request "POST" "/auth" None None (lit "clientId=Jane.")) fresh))
  = [].
Proof.
  apply (no_token_request_behind_204_400_404 JSON_stringify_echo
           Querystring.parse_plain granting
           (request "POST" "/auth" None None (lit "clientId=Jane."))).
  vm_compute. right; left; reflexivity.
Defined.

(** X5: every token request that goes out has the time to live 3600000,
    and is bound to one non-empty user identifier: its capability is the
    capability text of that user, and its client identifier ends in that
    user identifier. *)
Theorem token_requests_are_bound_to_the_user
        {TokenDetails : Type} (stringify : TokenDetails -> jsstring)
        (qs : option jsstring -> Querystring.ParsedUrlQuery)
        (ably : TokenRequest.t -> TokenDetails + Error)
        (req : IncomingMessage) (tr : TokenRequest.t) :
  In tr (requested (snd (handler stringify qs ably req fresh))) ->
  TokenRequest.ttl tr = 3600000 /\
  exists u p,
    u <> [] /\
    TokenRequest.clientId tr = p ++ u /\
    TokenRequest.capability tr =
      JSON_stringify_TokenCapabilities (capabilities u).
Proof.
  handler_outcomes stringify qs ably req; intros H;
    try (simpl in H; contradiction);
    (destruct H as [<-|[]]);
    (split; [reflexivity|]);
    destruct (resolved_userId_suffix qs req path id u c R Hu Hc) as [p ->];
    exists u, p; repeat split; assumption.
Qed.

Lemma token_requests_are_bound_to_the_user_witness :
  TokenRequest.ttl (tokenRequestFor (lit "J.R.Doe.u1") (lit "u1")) = 3600000 /\
  exists u p,
    u <> [] /\
    TokenRequest.clientId (tokenRequestFor (lit "J.R.Doe.u1") (lit "u1")) =
      p ++ u /\
    TokenRequest.capability (tokenRequestFor (lit "J.R.Doe.u1") (lit "u1")) =
      JSON_stringify_TokenCapabilities (capabilities u).
Proof.
  apply (token_requests_are_bound_to_the_user JSON_stringify_echo
           Querystring.parse_plain (rejecting (lit "no"))
           (request "GET" "/auth?clientId=J.R.Doe.u1" None None [])).
  vm_compute. left. reflexivity.
Defined.

(** ** Which input decides *)

(** X7: a non-empty [x-user-id] header decides alone: the query string and
    the body are not looked at, so the answer is the same under every
    parser and every body text, whatever [clientId] they carry. *)
Theorem header_identity_takes_precedence
        {TokenDetails : Type} (stringify : TokenDetails -> jsstring)
        (qs1 qs2 : option jsstring -> Querystring.ParsedUrlQuery)
        (ably : TokenRequest.t -> TokenDetails + Error)
        (req : IncomingMessage) (b : jsstring) (w : World) :
  truthy_opt (x_user_id (headers req)) = true ->
  handler stringify qs1 ably req w =
  handler stringify qs2 ably (withBody b req) w.
Proof.
  intros H.
  assert (R : forall path,
             resolveIdentity qs1 req path =
             resolveIdentity qs2 (withBody b req) path).
  { intros path. unfold resolveIdentity. cbn [headers withBody].
    destruct (x_user_id (headers req)) as [i|]; [|discriminate H].
    simpl in H. rewrite H. reflexivity. }
  unfold handler, route, tryBlock. cbn [url withBody].
  change (isPreflight (withBody b req)) with (isPreflight req).
  destruct (isPreflight req); [reflexivity|].
  destruct (url req) as [path|]; [|reflexivity].
  rewrite (R path). reflexivity.
Qed.

Lemma header_identity_takes_precedence_witness :
  handler JSON_stringify_echo Querystring.parse_plain granting
    (request "POST" "/auth?clientId=Mallory.u2" (sent "u1") (sent "Jane") [])
    fresh =
  handler JSON_stringify_echo (fun _ _ => None) granting
    (withBody (lit "clientId=Mallory.u3")
       (request "POST" "/auth?clientId=Mallory.u2" (sent "u1") (sent "Jane") []))
    fresh.
Proof.
  apply (header_identity_takes_precedence JSON_stringify_echo
           Querystring.parse_plain (fun _ _ => None) granting
           (request "POST" "/auth?clientId=Mallory.u2" (sent "u1") (sent "Jane") [])
           (lit "clientId=Mallory.u3") fresh).
  reflexivity.
Defined.

(** X8: without a usable header, a non-empty [clientId] of the query string
    decides and the body is not consulted for it: the answer is the same
    under every body text. *)
Theorem query_clientId_takes_precedence
        {TokenDetails : Type} (stringify : TokenDetails -> jsstring)
        (qs : option jsstring -> Querystring.ParsedUrlQuery)
        (ably : TokenRequest.t -> TokenDetails + Error)
        (req : IncomingMessage) (path : jsstring) (b1 b2 : jsstring)
        (w : World) :
  truthy_opt (x_user_id (headers req)) = false ->
  url req = Some path ->
  Querystring.truthy (qs (nth_error (split 63 path) 1) (lit "clientId")) = true ->
  handler stringify qs ably (withBody b1 req) w =
  handler stringify qs ably (withBody b2 req) w.
Proof.
  intros H U Q.
  assert (R : resolveIdentity qs (withBody b1 req) path =
              resolveIdentity qs (withBody b2 req) path).
  { rewrite !resolveIdentity_no_header by exact H.
    unfold identityFromSdk, sdkClientId. rewrite Q. reflexivity. }
  unfold handler, route, tryBlock. cbn [url withBody].
  change (isPreflight (withBody b1 req)) with (isPreflight req).
  change (isPreflight (withBody b2 req)) with (isPreflight req).
  destruct (isPreflight req); [reflexivity|].
  rewrite U, R. reflexivity.
Qed.

Lemma query_clientId_takes_precedence_witness :
  handler JSON_stringify_echo Querystring.parse_plain granting
    (withBody (lit "clientId=Bob.u2")
       (request "POST" "/auth?clientId=Jane.u1" None None [])) fresh =
  handler JSON_stringify_echo Querystring.parse_plain granting
    (withBody []
       (request "POST" "/auth?clientId=Jane.u1" None None [])) fresh.
Proof.
  apply (query_clientId_takes_precedence JSON_stringify_echo
           Querystring.parse_plain granting
           (request "POST" "/auth?clientId=Jane.u1" None None [])
           (lit "/auth?clientId=Jane.u1") (lit "clientId=Bob.u2") [] fresh);
    reflexivity.
Defined.

(** X12: an empty header value counts as no header: an empty [x-user-id]
    sends the request down the combined-id path, and an empty [x-user-name]
    gives the default display name. *)
Theorem empty_header_is_absent
        {TokenDetails : Type} (stringify : TokenDetails -> jsstring)
        (qs : option jsstring -> Querystring.ParsedUrlQuery)
        (ably : TokenRequest.t -> TokenDetails + Error)
        (req : IncomingMessage) (i n : option jsstring) (w : World) :
  handler stringify qs ably
    (withHeaders {| x_user_id := Some []; x_user_name := n |} req) w =
  handler stringify qs ably
    (withHeaders {| x_user_id := None; x_user_name := n |} req) w /\
  handler stringify qs ably
    (withHeaders {| x_user_id := i; x_user_name := Some [] |} req) w =
  handler stringify qs ably
    (withHeaders {| x_user_id := i; x_user_name := None |} req) w.
Proof. split; reflexivity. Qed.

(** ** Edges of the combined-id path *)

(** X9: a [clientId] key that occurs more than once reaches the handler as
    an array; the call of [split] on it throws inside the [try] block, so the
    answer is 500 with the message of the TypeError as details, and the
    issuing authority is not asked. *)
Theorem repeated_clientId_is_500
        {TokenDetails : Type} (stringify : TokenDetails -> jsstring)
        (qs : option jsstring -> Querystring.ParsedUrlQuery)
        (ably : TokenRequest.t -> TokenDetails + Error)
        (req : IncomingMessage) (path : jsstring) (a : list jsstring) :
  isPreflight req = false ->
  url req = Some path -> startsWith (lit "/auth") path = true ->
  truthy_opt (x_user_id (headers req)) = false ->
  sdkClientId qs req path = Some (Querystring.Arr a) ->
  let r := handler stringify qs ably req fresh in
  fst r = Normal tt /\
  statusCode (res (snd r)) = 500 /\
  data (res (snd r)) =
    dq_lit "{'error':'Failed to create token','details':'sdkClientId.split is not a function'}" /\
  requested (snd r) = [].
Proof.
  intros Hp Hurl Hs Hh Es r. subst r.
  rewrite handler_route by exact Hp.
  rewrite (route_auth stringify qs ably req path _ Hurl Hs).
  unfold try_catch, tryBlock, bind.
  rewrite resolveIdentity_no_header by exact Hh.
  unfold identityFromSdk. rewrite Es.
  repeat split; reflexivity.
Qed.

Lemma repeated_clientId_is_500_witness :
  let r := handler JSON_stringify_echo Querystring.parse_plain granting
             (request "GET" "/auth?clientId=Jane.u1&clientId=Jane.u1"
                      None None []) fresh in
  fst r = Normal tt /\
  statusCode (res (snd r)) = 500 /\
  data (res (snd r)) =
    dq_lit "{'error':'Failed to create token','details':'sdkClientId.split is not a function'}" /\
  requested (snd r) = [].
Proof.
  apply (repeated_clientId_is_500 JSON_stringify_echo Querystring.parse_plain
           granting
           (request "GET" "/auth?clientId=Jane.u1&clientId=Jane.u1"
                    None None [])
           (lit "/auth?clientId=Jane.u1&clientId=Jane.u1")
           [lit "Jane.u1"; lit "Jane.u1"]);
    reflexivity.
Defined.

(** X10: a combined identifier without dot is accepted whole: it is the
    client identifier and the user identifier at once. *)
Theorem dotless_clientId_is_the_userId
        {TokenDetails : Type} (stringify : TokenDetails -> jsstring)
        (qs : option jsstring -> Querystring.ParsedUrlQuery)
        (ably : TokenRequest.t -> TokenDetails + Error)
        (req : IncomingMessage) (path s : jsstring) :
  isPreflight req = false ->
  url req = Some path -> startsWith (lit "/auth") path = true ->
  truthy_opt (x_user_id (headers req)) = false ->
  sdkClientId qs req path = Some (Querystring.Str s) ->
  s <> [] -> ~ In 46 s ->
  requested (snd (handler stringify qs ably req fresh)) =
  [tokenRequestFor s s].
Proof.
  intros Hp Hurl Hs Hh Es Hn Hdot.
  assert (R : fst (resolveIdentity qs req path fresh) =
              Normal {| userId := Some s; userName := Some [];
                        clientId := Some s |}).
  { rewrite resolveIdentity_no_header by exact Hh.
    rewrite (identityFromSdk_string qs req path fresh s Es Hn).
    rewrite split_no_sep by exact Hdot. reflexivity. }
  rewrite (handler_resolved stringify qs ably req path fresh _ s s
             Hp Hurl Hs R eq_refl Hn eq_refl).
  rewrite requested_after_token_request. reflexivity.
Qed.

Lemma dotless_clientId_is_the_userId_witness :
  requested
    (snd (handler JSON_stringify_echo Querystring.parse_plain granting
            (request "GET" "/auth?clientId=u1" None None []) fresh)) =
  [tokenRequestFor (lit "u1") (lit "u1")].
Proof.
  apply (dotless_clientId_is_the_userId JSON_stringify_echo
           Querystring.parse_plain granting
           (request "GET" "/auth?clientId=u1" None None [])
           (lit "/auth?clientId=u1") (lit "u1"));
    try reflexivity; try discriminate.
  intros H. vm_compute in H. repeat destruct H as [H|H]; discriminate H || exact H.
Defined.

(** X11: a combined identifier that ends in a dot has an empty user
    identifier and is answered like a request without identity: 400, and
    the issuing authority is not asked. *)
Theorem trailing_dot_is_400
        {TokenDetails : Type} (stringify : TokenDetails -> jsstring)
        (qs : option jsstring -> Querystring.ParsedUrlQuery)
        (ably : TokenRequest.t -> TokenDetails + Error)
        (req : IncomingMessage) (path n : jsstring) :
  isPreflight req = false ->
  url req = Some path -> startsWith (lit "/auth") path = true ->
  truthy_opt (x_user_id (headers req)) = false ->
  sdkClientId qs req path = Some (Querystring.Str (n ++ lit ".")) ->
  let r := handler stringify qs ably req fresh in
  fst r = Normal tt /\
  statusCode (res (snd r)) = 400 /\
  data (res (snd r)) = dq_lit "{'error':'Could not determine user identity'}" /\
  requested (snd r) = [].
Proof.
  intros Hp Hurl Hs Hh Es r. subst r.
  assert (R : fst (resolveIdentity qs req path fresh) =
              Normal {| userId := Some []; userName := Some n;
                        clientId := Some (n ++ lit ".") |}).
  { rewrite resolveIdentity_no_header by exact Hh.
    rewrite (identityFromSdk_string qs req path fresh _ Es)
      by (destruct n; discriminate).
    change (n ++ lit ".") with (n ++ 46 :: []).
    rewrite split_app_last by (intros []).
    rewrite pop_snoc. cbn [fst snd].
    change (lit ".") with [46]. rewrite join_split. reflexivity. }
  rewrite handler_route by exact Hp.
  rewrite (route_auth stringify qs ably req path _ Hurl Hs).
  unfold try_catch.
  rewrite (tryBlock_unresolved stringify qs ably req path _ _ R) by reflexivity.
  rewrite respondMissingIdentity_eq. repeat split; reflexivity.
Qed.

Lemma trailing_dot_is_400_witness :
  let r := handler JSON_stringify_echo Querystring.parse_plain granting
             (request "GET" "/auth?clientId=Jane." None None []) fresh in
  fst r = Normal tt /\
  statusCode (res (snd r)) = 400 /\
  data (res (snd r)) = dq_lit "{'error':'Could not determine user identity'}" /\
  requested (snd r) = [].
Proof.
  apply (trailing_dot_is_400 JSON_stringify_echo Querystring.parse_plain
           granting (request "GET" "/auth?clientId=Jane." None None [])
           (lit "/auth?clientId=Jane.") (lit "Jane"));
    reflexivity.
Defined.

(** ** Preflight and success *)

(** X15: the preflight check comes before routing and identity: an OPTIONS
    request is answered 204 with an empty body and without content type,
    whatever its URL and headers are, and the issuing authority is not
    asked. *)
Theorem preflight_short_circuits
        {TokenDetails : Type} (stringify : TokenDetails -> jsstring)
        (qs : option jsstring -> Querystring.ParsedUrlQuery)
        (ably : TokenRequest.t -> TokenDetails + Error)
        (req : IncomingMessage) :
  method req = Some (lit "OPTIONS") ->
  let r := handler stringify qs ably req fresh in
  fst r = Normal tt /\
  statusCode (res (snd r)) = 204 /\
  data (res (snd r)) = [] /\
  finished (res (snd r)) = true /\
  Obj.get (lit "Content-Type") (resHeaders (res (snd r))) = None /\
  requested (snd r) = [].
Proof.
  intros M r. subst r. unfold handler, bind, isPreflight. rewrite M.
  repeat split; reflexivity.
Qed.

Lemma preflight_short_circuits_witness :
  let r := handler JSON_stringify_echo Querystring.parse_plain granting
             (request "OPTIONS" "/nope" (sent "u1") None []) fresh in
  fst r = Normal tt /\
  statusCode (res (snd r)) = 204 /\
  data (res (snd r)) = [] /\
  finished (res (snd r)) = true /\
  Obj.get (lit "Content-Type") (resHeaders (res (snd r))) = None /\
  requested (snd r) = [].
Proof.
  apply (preflight_short_circuits JSON_stringify_echo Querystring.parse_plain
           granting (request "OPTIONS" "/nope" (sent "u1") None [])).
  reflexivity.
Defined.

(** X16: when the issuing authority grants the token request, the answer is
    200 with the serialization of the token details as JSON body, after one
    request to the authority. *)
Theorem issuance_success_is_200
        {TokenDetails : Type} (stringify : TokenDetails -> jsstring)
        (qs : option jsstring -> Querystring.ParsedUrlQuery)
        (ably : TokenRequest.t -> TokenDetails + Error)
        (req : IncomingMessage) (path : jsstring)
        (id : Identity) (u c : jsstring) (td : TokenDetails) :
  isPreflight req = false ->
  url req = Some path -> startsWith (lit "/auth") path = true ->
  fst (resolveIdentity qs req path fresh) = Normal id ->
  userId id = Some u -> u <> [] -> clientId id = Some c ->
  ably (tokenRequestFor c u) = inl td ->
  let r := handler stringify qs ably req fresh in
  fst r = Normal tt /\
  statusCode (res (snd r)) = 200 /\
  finished (res (snd r)) = true /\
  Obj.get (lit "Content-Type") (resHeaders (res (snd r))) =
    Some (lit "application/json") /\
  data (res (snd r)) = stringify td /\
  requested (snd r) = [tokenRequestFor c u].
Proof.
  intros Hp Hurl Hs R Hu Hn Hc Hably r. subst r.
  rewrite (handler_resolved stringify qs ably req path fresh id u c)
    by assumption.
  unfold try_catch, bind at 1, requestToken.
  change {| TokenRequest.clientId := c;
            TokenRequest.capability :=
              JSON_stringify_TokenCapabilities (capabilities u);
            TokenRequest.ttl := 3600000 |} with (tokenRequestFor c u).
  rewrite Hably. repeat split; reflexivity.
Qed.

Lemma issuance_success_is_200_witness :
  let r := handler JSON_stringify_echo Querystring.parse_plain granting
             (request "GET" "/auth" (sent "u1") (sent "Jane Doe") []) fresh in
  fst r = Normal tt /\
  statusCode (res (snd r)) = 200 /\
  finished (res (snd r)) = true /\
  Obj.get (lit "Content-Type") (resHeaders (res (snd r))) =
    Some (lit "application/json") /\
  data (res (snd r)) =
    JSON_stringify_echo (tokenRequestFor (lit "Jane_Doe.u1") (lit "u1")) /\
  requested (snd r) = [tokenRequestFor (lit "Jane_Doe.u1") (lit "u1")].
Proof.
  apply (issuance_success_is_200 JSON_stringify_echo Querystring.parse_plain
           granting (request "GET" "/auth" (sent "u1") (sent "Jane Doe") [])
           (lit "/auth")
           {| userId := Some (lit "u1"); userName := Some (lit "Jane Doe");
              clientId := Some (lit "Jane_Doe.u1") |}
           (lit "u1") (lit "Jane_Doe.u1")
           (tokenRequestFor (lit "Jane_Doe.u1") (lit "u1")));
    try reflexivity.
  discriminate.
Defined.

(** ** Client and server together *)

(** X17: the token request the server makes for the client's request names
    the client by its sanitized name and its identifier, and the capability
    object it carries allows every operation the client goes on to perform,
    on the channel the client performs it on. *)
Theorem client_is_served
        {TokenDetails : Type} (stringify : TokenDetails -> jsstring)
        (qs : option jsstring -> Querystring.ParsedUrlQuery)
        (ably : TokenRequest.t -> TokenDetails + Error)
        (id name : jsstring) :
  id <> [] ->
  requested (snd (handler stringify qs ably (Client.authRequest id name) fresh))
  = [tokenRequestFor
       (replace_ws_runs (or_else (Some name) (lit "Unknown")) ++ lit "." ++ id)
       id] /\
  forall channel operation,
    In (channel, operation) (Client.channelUses id) ->
    exists ops, Obj.get channel (capabilities id) = Some ops /\
                In operation ops.
Proof.
  intros Hn. split.
  - assert (R : fst (resolveIdentity qs (Client.authRequest id name)
                                     (lit "/auth") fresh) =
                Normal
                  {| userId := Some id;
                     userName := Some (or_else (Some name) (lit "Unknown"));
                     clientId :=
                       Some (replace_ws_runs
                               (or_else (Some name) (lit "Unknown"))
                             ++ lit "." ++ id) |}).
    { rewrite (resolveIdentity_headers qs (Client.authRequest id name)
                 (lit "/auth") fresh id eq_refl Hn).
      reflexivity. }
    rewrite (handler_resolved stringify qs ably (Client.authRequest id name)
               (lit "/auth") fresh _ id _
               eq_refl eq_refl eq_refl R eq_refl Hn eq_refl).
    apply requested_after_token_request.
  - intros channel operation [[= <- <-]|[[= <- <-]|[]]].
    + exists [lit "publish"; lit "subscribe"; lit "history"].
      split; [apply get_roomslist|left; reflexivity].
    + exists [lit "publish"; lit "subscribe"; lit "presence"].
      split; [apply get_presence|right; right; left; reflexivity].
Qed.

Lemma client_is_served_witness :
  requested
    (snd (handler JSON_stringify_echo Querystring.parse_plain granting
            (Client.authRequest Client.USER_ID Client.USER_NAME) fresh))
  = [tokenRequestFor (lit "Alice_Johnson" ++ lit "." ++ Client.USER_ID)
                     Client.USER_ID] /\
  forall channel operation,
    In (channel, operation) (Client.channelUses Client.USER_ID) ->
    exists ops, Obj.get channel (capabilities Client.USER_ID) = Some ops /\
                In operation ops.
Proof.
  apply (client_is_served JSON_stringify_echo Querystring.parse_plain granting
           Client.USER_ID Client.USER_NAME).
  discriminate.
Defined.
